(** * math-gen: the quiz controller ([MathTutor.jsx]) and the toast notifier
    ([useToast])

    A shallow embedding of the two event handlers of [MathTutor]
    ([fetchQuestion], [submitAnswer]), of [handleError], and of the [toast]
    function returned by [useToast], followed by the properties the
    specification states about them.

    React state is a record; a handler is a function on that record.  What the
    handlers get from outside is passed in: the settled [fetch] promise
    ([reply]), the string [Math.random().toString(36).slice(2)] evaluates to
    ([rid]).  [setTimeout] appends to a list of pending timers kept next to a
    clock in milliseconds; [advance_to] lets time pass and runs the callbacks
    that fall due.

    An [async] handler is cut at its [await] into [_start] and [_resume].
    [fetchQuestion] and [submitAnswer] are the two halves back to back, the
    handler's own effect on the state; [fetchQuestion_at] and
    [submitAnswer_at] put the passing of time between the halves.

    [respond] is the page as an event loop: presses, choices, replies and
    the passing of time, one at a time and in any order the rendered
    controls allow.  [render] is the element tree [MathTutor] returns,
    [expand] calls the components of [components/ui] in it, and [screen] is
    the result, or nothing where the render fails.  [screen] is a function
    of the state: what the page shows in that state, no earlier render
    having failed. *)

From Stdlib Require Import String ZArith List Bool Lia Sorted DecimalString.
Import ListNotations.
Open Scope string_scope.
Open Scope Z_scope.
Local Set Warnings "-register-all".

(** ** JavaScript values, as far as the handlers look at them *)

Module Js.

(** What [JSON.parse] can return, and [undefined] for what a property read
    returns when the property is absent.  Numbers are integers here: the
    handlers only ever test a number for truthiness, and a JSON number is falsy
    exactly when it is zero. *)
Inductive value : Type :=
| Undefined
| Null
| Bool (b : bool)
| Num (n : Z)
| Str (s : string)
| Arr (items : list value)
| Obj (fields : list (string * value)).

(** [!v] is [negb (truthy v)]. *)
Definition truthy (v : value) : bool :=
  match v with
  | Undefined | Null => false
  | Bool b => b
  | Num n => negb (n =? 0)
  | Str s => negb (s =? "")%string
  | Arr _ | Obj _ => true
  end.

(** [!s] for a string-valued state variable. *)
Definition truthy_string (s : string) : bool := negb (s =? "")%string.

(** [typeof v === "boolean"] *)
Definition is_boolean (v : value) : bool :=
  match v with Bool _ => true | _ => false end.

(** [Array.isArray(v)] *)
Definition isArray (v : value) : bool :=
  match v with Arr _ => true | _ => false end.

Definition nullish (v : value) : bool :=
  match v with Undefined | Null => true | _ => false end.

(** The value bound to [k] among the members of an object; when a key is
    repeated the last binding wins, as in [JSON.parse]. *)
Fixpoint member (k : string) (fields : list (string * value)) : option value :=
  match fields with
  | [] => None
  | (k', v) :: rest =>
      match member k rest with
      | Some w => Some w
      | None => if (k' =? k)%string then Some v else None
      end
  end.

(** [v.k] for a [v] that is neither [null] nor [undefined].  Primitives and
    arrays have no property under any of the names the handlers read ([id],
    [question_text], [options], [is_correct], [solution_steps], [text]). *)
Definition property (v : value) (k : string) : value :=
  match v with
  | Obj fields => match member k fields with Some w => w | None => Undefined end
  | _ => Undefined
  end.

(** What can be thrown and caught. [HttpError status] is
    [new Error(`HTTP error! status: ${status}`)]. *)
Inductive error : Type :=
| TypeError
| SyntaxError
| HttpError (status : Z)
| Error (message : string).

(** The result of evaluating something that may throw. *)
Inductive completion (A : Type) : Type :=
| Normal (a : A)
| Throw (e : error).
Arguments Normal {A} a.
Arguments Throw {A} e.

Definition bind {A B : Type} (c : completion A) (k : A -> completion B)
  : completion B :=
  match c with
  | Normal a => k a
  | Throw e => Throw e
  end.

(** [v.k] *)
Definition get (v : value) (k : string) : completion value :=
  if nullish v then Throw TypeError else Normal (property v k).

(** [v?.k] *)
Definition get_optional (v : value) (k : string) : value :=
  if nullish v then Undefined else property v k.

End Js.

Notation "x <- c ;; k" := (Js.bind c (fun x => k))
  (at level 61, c at next level, right associativity).

(** ** The network *)

(** The [Response] object as far as the handlers use it: [status] (and [ok],
    which is computed from it) and what [await response.json()] gives. *)
Record Response : Type := {
  status : Z;
  json : Js.completion Js.value
}.

(** [response.ok]: the status is in the range 200-299. *)
Definition ok (r : Response) : bool :=
  (200 <=? status r) && (status r <=? 299).

(** How the promise returned by [fetch] settles. *)
Inductive reply : Type :=
| Rejected (e : Js.error)
| Resolved (r : Response).

(** [await fetch(...)] *)
Definition await (p : reply) : Js.completion Response :=
  match p with
  | Rejected e => Js.Throw e
  | Resolved r => Js.Normal r
  end.

(** The two endpoints: [`${import.meta.env.VITE_BASE_URL}/questions`] and
    ["http://localhost:8000/submit"]. *)
Inductive endpoint : Type := Questions | Submit.

(** A [POST] with a JSON body. *)
Record request : Type := {
  url : endpoint;
  body : Js.value
}.

(** ** State *)

Inductive Variant : Type := Default | Destructive.

(** An element of the [toasts] array of [useToast]. *)
Record Toast : Type := {
  id : string;
  title : option string;
  description : option string;
  variant : Variant
}.

(** The two closures the program hands to [setTimeout]. *)
Inductive callback : Type :=
| RemoveToast (rid : string)
  (* () => setToasts((prevToasts) => prevToasts.filter((toast) => toast.id !== id)) *)
| ShowFeedback (data : Js.value)
  (* () => { setFeedback(data); setLoading(false); } *).

Record timer : Type := {
  due : Z;
  action : callback
}.

(** The [useState] cells of [MathTutor] and of [useToast], and around them the
    clock, the pending timers, what went to [console.error] and the requests
    sent so far. *)
Record State : Type := {
  topic : string;
  difficulty : string;
  question : Js.value;
  selectedAnswer : Js.value;
  feedback : Js.value;
  loading : bool;
  toasts : list Toast;
  clock : Z;
  timers : list timer;
  console : list Js.error;
  requests : list request
}.

(** [useState("")], [useState(null)], [useState(false)], [useState([])]. *)
Definition initial : State := {|
  topic := ""; difficulty := ""; question := Js.Null;
  selectedAnswer := Js.Str "";
  feedback := Js.Null; loading := false; toasts := [];
  clock := 0; timers := []; console := []; requests := []
|}.

Definition setTopic (v : string) (s : State) : State :=
  {| topic := v; difficulty := difficulty s; question := question s;
     selectedAnswer := selectedAnswer s; feedback := feedback s;
     loading := loading s; toasts := toasts s; clock := clock s;
     timers := timers s; console := console s; requests := requests s |}.

Definition setDifficulty (v : string) (s : State) : State :=
  {| topic := topic s; difficulty := v; question := question s;
     selectedAnswer := selectedAnswer s; feedback := feedback s;
     loading := loading s; toasts := toasts s; clock := clock s;
     timers := timers s; console := console s; requests := requests s |}.

Definition setQuestion (v : Js.value) (s : State) : State :=
  {| topic := topic s; difficulty := difficulty s; question := v;
     selectedAnswer := selectedAnswer s; feedback := feedback s;
     loading := loading s; toasts := toasts s; clock := clock s;
     timers := timers s; console := console s; requests := requests s |}.

Definition setSelectedAnswer (v : Js.value) (s : State) : State :=
  {| topic := topic s; difficulty := difficulty s; question := question s;
     selectedAnswer := v; feedback := feedback s;
     loading := loading s; toasts := toasts s; clock := clock s;
     timers := timers s; console := console s; requests := requests s |}.

Definition setFeedback (v : Js.value) (s : State) : State :=
  {| topic := topic s; difficulty := difficulty s; question := question s;
     selectedAnswer := selectedAnswer s; feedback := v;
     loading := loading s; toasts := toasts s; clock := clock s;
     timers := timers s; console := console s; requests := requests s |}.

Definition setLoading (v : bool) (s : State) : State :=
  {| topic := topic s; difficulty := difficulty s; question := question s;
     selectedAnswer := selectedAnswer s; feedback := feedback s;
     loading := v; toasts := toasts s; clock := clock s;
     timers := timers s; console := console s; requests := requests s |}.

(** [setToasts((prevToasts) => f(prevToasts))] *)
Definition setToasts (f : list Toast -> list Toast) (s : State) : State :=
  {| topic := topic s; difficulty := difficulty s; question := question s;
     selectedAnswer := selectedAnswer s; feedback := feedback s;
     loading := loading s; toasts := f (toasts s); clock := clock s;
     timers := timers s; console := console s; requests := requests s |}.

Definition with_clock (t : Z) (s : State) : State :=
  {| topic := topic s; difficulty := difficulty s; question := question s;
     selectedAnswer := selectedAnswer s; feedback := feedback s;
     loading := loading s; toasts := toasts s; clock := t;
     timers := timers s; console := console s; requests := requests s |}.

Definition with_timers (l : list timer) (s : State) : State :=
  {| topic := topic s; difficulty := difficulty s; question := question s;
     selectedAnswer := selectedAnswer s; feedback := feedback s;
     loading := loading s; toasts := toasts s; clock := clock s;
     timers := l; console := console s; requests := requests s |}.

(** [console.error(error)] *)
Definition console_error (e : Js.error) (s : State) : State :=
  {| topic := topic s; difficulty := difficulty s; question := question s;
     selectedAnswer := selectedAnswer s; feedback := feedback s;
     loading := loading s; toasts := toasts s; clock := clock s;
     timers := timers s; console := console s ++ [e]; requests := requests s |}.

(** [fetch(url, { method: "POST", ..., body: JSON.stringify(body) })], the
    sending half. *)
Definition send (r : request) (s : State) : State :=
  {| topic := topic s; difficulty := difficulty s; question := question s;
     selectedAnswer := selectedAnswer s; feedback := feedback s;
     loading := loading s; toasts := toasts s; clock := clock s;
     timers := timers s; console := console s; requests := requests s ++ [r] |}.

(** ** Timers *)

(** [setTimeout(cb, delay)]: [cb] is to run [delay] milliseconds from now. *)
Definition setTimeout (cb : callback) (delay : Z) (s : State) : State :=
  with_timers (timers s ++ [{| due := clock s + delay; action := cb |}]) s.

(** The bodies of the two callbacks. *)
Definition run (cb : callback) (s : State) : State :=
  match cb with
  | RemoveToast rid =>
      setToasts (filter (fun toast => negb (id toast =? rid)%string)) s
  | ShowFeedback data =>
      setLoading false (setFeedback data s)
  end.

(** Timers run in the order of their due times, and in the order they were
    set where these are equal. *)
Fixpoint insert_by_due (x : timer) (l : list timer) : list timer :=
  match l with
  | [] => [x]
  | y :: rest =>
      if due x <=? due y then x :: y :: rest else y :: insert_by_due x rest
  end.

Fixpoint in_firing_order (l : list timer) : list timer :=
  match l with
  | [] => []
  | x :: rest => insert_by_due x (in_firing_order rest)
  end.

Definition is_due (t : Z) (x : timer) : bool := due x <=? t.

(** The callbacks of [l] run one after the other. *)
Definition run_all (l : list timer) (s : State) : State :=
  fold_left (fun st x => run (action x) st) l s.

(** Time passes until the clock shows [t], with nothing but timers running:
    those due by [t] run, the others stay pending.  Neither callback sets a
    timer, so one pass is all there is. *)
Definition advance_to (t : Z) (s : State) : State :=
  let ready := in_firing_order (filter (is_due t) (timers s)) in
  let waiting := filter (fun x => negb (is_due t x)) (timers s) in
  run_all ready (with_clock (Z.max (clock s) t) (with_timers waiting s)).

(** ** The toast notifier ([useToast]) *)

(** [toast({ title, description, variant = "default" })], with [rid] for what
    [Math.random().toString(36).slice(2)] evaluates to in this call. *)
Definition toast (rid : string) (title description : option string)
    (variant : option Variant) (s : State) : State :=
  let variant := match variant with Some v => v | None => Default end in
  let entry := {| id := rid; title := title; description := description;
                  variant := variant |} in
  let s := setToasts (fun prevToasts => (prevToasts ++ [entry])%list) s in
  setTimeout (RemoveToast rid) 5000 s.

(** ** The quiz controller ([MathTutor]) *)

Definition topics : list (string * string) :=
  [("algebra", "Algebra"); ("geometry", "Geometry");
   ("trigonometry", "Trigonometry"); ("calculus", "Calculus");
   ("statistics", "Statistics")].

Definition difficulties : list (string * string) :=
  [("beginner", "Beginner"); ("intermediate", "Intermediate");
   ("advanced", "Advanced")].

Definition handleError (rid : string) (error : Js.error)
    (customMessage : string) (s : State) : State :=
  toast rid (Some "Error") (Some customMessage) (Some Destructive)
    (console_error error s).

(** An [async] handler either returns before its [await], or is suspended at
    it with the request sent. *)
Inductive progress : Type :=
| Returned (s : State)
| Awaiting (s : State).

(** *** [fetchQuestion] *)

(** Up to [await fetch(...)]. *)
Definition fetchQuestion_start (rid : string) (s : State) : progress :=
  if negb (Js.truthy_string (topic s)) || negb (Js.truthy_string (difficulty s))
  then
    Returned (toast rid (Some "Invalid Input")
                (Some "Please select both topic and difficulty")
                (Some Destructive) s)
  else
    let s := setLoading true s in
    Awaiting (send {| url := Questions;
                      body := Js.Obj [("topic", Js.Str (topic s));
                                      ("difficulty", Js.Str (difficulty s))] |}
                s).

(** [!data.id || !data.question_text || !Array.isArray(data.options)] *)
Definition invalid_question (data : Js.value) : Js.completion bool :=
  i <- Js.get data "id" ;;
  if negb (Js.truthy i) then Js.Normal true else
  q <- Js.get data "question_text" ;;
  if negb (Js.truthy q) then Js.Normal true else
  o <- Js.get data "options" ;;
  Js.Normal (negb (Js.isArray o)).

(** The [try] block from the point where [fetch] settles.  The two [await]s
    are taken together: the handler touches no state between them. *)
Definition fetchQuestion_try (p : reply) (s : State) : Js.completion State :=
  response <- await p ;;
  if negb (ok response) then Js.Throw (Js.HttpError (status response)) else
  data <- json response ;;
  bad <- invalid_question data ;;
  if bad then Js.Throw (Js.Error "Invalid question format received") else
  Js.Normal
    (setFeedback Js.Null (setSelectedAnswer (Js.Str "") (setQuestion data s))).

(** [try], [catch] and [finally], once [fetch] has settled as [p]. *)
Definition fetchQuestion_resume (rid : string) (p : reply) (s : State) : State :=
  let s :=
    match fetchQuestion_try p s with
    | Js.Normal s' => s'
    | Js.Throw error =>
        handleError rid error "Failed to fetch question. Please try again." s
    end in
  setLoading false s.

(** One invocation, the two halves back to back: what the handler itself
    does to the state. *)
Definition fetchQuestion (rid : string) (p : reply) (s : State) : State :=
  match fetchQuestion_start rid s with
  | Returned s' => s'
  | Awaiting s' => fetchQuestion_resume rid p s'
  end.

(** One invocation whose reply arrives when the clock shows [t0]; while the
    handler is suspended time passes and the timers that fall due run. *)
Definition fetchQuestion_at (t0 : Z) (rid : string) (p : reply) (s : State)
  : State :=
  match fetchQuestion_start rid s with
  | Returned s' => s'
  | Awaiting s' => fetchQuestion_resume rid p (advance_to t0 s')
  end.

(** *** [submitAnswer] *)

Definition submitAnswer_catch (rid : string) (error : Js.error) (s : State)
  : State :=
  setLoading false
    (handleError rid error "Failed to submit answer. Please try again." s).

(** Up to [await fetch(...)]. *)
Definition submitAnswer_start (rid : string) (s : State) : progress :=
  if negb (Js.truthy (Js.get_optional (question s) "id"))
     || negb (Js.truthy (selectedAnswer s))
  then
    Returned (toast rid (Some "Invalid Submission")
                (Some "Please select an answer before submitting")
                (Some Destructive) s)
  else
    let s1 := setLoading true s in
    match Js.get (question s) "id" with
    | Js.Normal question_id =>
        Awaiting (send {| url := Submit;
                          body := Js.Obj [("question_id", question_id);
                                          ("selected_answer",
                                           selectedAnswer s)] |}
                    s1)
    | Js.Throw error => Returned (submitAnswer_catch rid error s1)
    end.

(** [typeof data.is_correct !== "boolean" || !Array.isArray(data.solution_steps)] *)
Definition invalid_feedback (data : Js.value) : Js.completion bool :=
  c <- Js.get data "is_correct" ;;
  if negb (Js.is_boolean c) then Js.Normal true else
  steps <- Js.get data "solution_steps" ;;
  Js.Normal (negb (Js.isArray steps)).

(** The [try] block from the point where [fetch] settles. *)
Definition submitAnswer_try (p : reply) (s : State) : Js.completion State :=
  response <- await p ;;
  if negb (ok response) then Js.Throw (Js.HttpError (status response)) else
  data <- json response ;;
  bad <- invalid_feedback data ;;
  if bad then Js.Throw (Js.Error "Invalid feedback format received") else
  Js.Normal (setTimeout (ShowFeedback data) 5000 s).

(** [try] and [catch], once [fetch] has settled as [p]. *)
Definition submitAnswer_resume (rid : string) (p : reply) (s : State) : State :=
  match submitAnswer_try p s with
  | Js.Normal s' => s'
  | Js.Throw error => submitAnswer_catch rid error s
  end.

(** One invocation, the two halves back to back: what the handler itself
    does to the state. *)
Definition submitAnswer (rid : string) (p : reply) (s : State) : State :=
  match submitAnswer_start rid s with
  | Returned s' => s'
  | Awaiting s' => submitAnswer_resume rid p s'
  end.

(** One invocation whose reply arrives when the clock shows [t0]; while the
    handler is suspended time passes and the timers that fall due run. *)
Definition submitAnswer_at (t0 : Z) (rid : string) (p : reply) (s : State)
  : State :=
  match submitAnswer_start rid s with
  | Returned s' => s'
  | Awaiting s' => submitAnswer_resume rid p (advance_to t0 s')
  end.

(** *** What the rendered page lets the user do *)

(** The [text] of each element of [question.options]. *)
Definition option_texts (q : Js.value) : list Js.value :=
  match Js.property q "options" with
  | Js.Arr items => map (fun option => Js.property option "text") items
  | _ => []
  end.

Inductive event : Type :=
| SelectTopic (v : string)          (* <Select value={topic} onValueChange={setTopic}> *)
| SelectDifficulty (v : string)     (* <Select value={difficulty} onValueChange={setDifficulty}> *)
| SelectOption (index : nat)        (* <RadioGroup onValueChange={setSelectedAnswer}> *)
| ClickGetQuestion (rid : string) (latency : Z) (p : reply)
| ClickSubmitAnswer (rid : string) (latency : Z) (p : reply)
| ClickTryAnother (rid : string) (latency : Z) (p : reply)
| Wait (ms : Z).

(** [None] where the control is not rendered or is disabled.  A click comes
    with the time the reply takes and with the reply. *)
Definition handle (e : event) (s : State) : option State :=
  match e with
  | SelectTopic v =>
      if existsb (fun t => (fst t =? v)%string) topics
      then Some (setTopic v s) else None
  | SelectDifficulty v =>
      if existsb (fun d => (fst d =? v)%string) difficulties
      then Some (setDifficulty v s) else None
  | SelectOption index =>
      (* {question && ( ... <RadioGroupItem value={option.text} /> ... )}:
         the item of the option number [index] is picked, and the group
         calls [setSelectedAnswer] with the item's [value] *)
      if Js.truthy (question s) then
        match nth_error (option_texts (question s)) index with
        | Some text => Some (setSelectedAnswer text s)
        | None => None
        end
      else None
  | ClickGetQuestion rid latency p =>
      (* disabled={!topic || !difficulty || loading} *)
      if negb (Js.truthy_string (topic s))
         || negb (Js.truthy_string (difficulty s)) || loading s
         || (latency <? 0)
      then None else Some (fetchQuestion_at (clock s + latency) rid p s)
  | ClickSubmitAnswer rid latency p =>
      (* {question && ( ... disabled={!selectedAnswer || loading} ... )} *)
      if Js.truthy (question s)
         && negb (negb (Js.truthy (selectedAnswer s)) || loading s)
         && (0 <=? latency)
      then Some (submitAnswer_at (clock s + latency) rid p s) else None
  | ClickTryAnother rid latency p =>
      (* {feedback && ( ... <Button onClick={fetchQuestion}> ... )} *)
      if Js.truthy (feedback s) && (0 <=? latency)
      then Some (fetchQuestion_at (clock s + latency) rid p s) else None
  | Wait ms =>
      if 0 <=? ms then Some (advance_to (clock s + ms) s) else None
  end.

(** A session: the events in the order they happen. *)
Fixpoint session (es : list event) (s : State) : option State :=
  match es with
  | [] => Some s
  | e :: rest =>
      match handle e s with
      | Some s' => session rest s'
      | None => None
      end
  end.

(** ** What the claims speak of *)

(** The notices the handlers raise. *)
Definition notice (rid title description : string) : Toast :=
  {| id := rid; title := Some title; description := Some description;
     variant := Destructive |}.

Definition is_feedback_timer (x : timer) : bool :=
  match action x with ShowFeedback _ => true | RemoveToast _ => false end.


(** Every [setTimeout] of an earlier [submitAnswer] that is still to run is
    due by [t]. *)
Definition feedback_due_by (t : Z) (s : State) : Prop :=
  Forall (fun x => is_feedback_timer x = true -> due x <= t) (timers s).

(** The ways a question request that has reached the network can fail. *)
Inductive question_request_fails : reply -> Prop :=
| question_transport_error e :
    question_request_fails (Rejected e)
| question_status_not_2xx r :
    ok r = false -> question_request_fails (Resolved r)
| question_body_unreadable r e :
    json r = Js.Throw e -> question_request_fails (Resolved r)
| question_without_id r data :
    json r = Js.Normal data -> Js.property data "id" = Js.Undefined ->
    question_request_fails (Resolved r)
| question_without_text r data :
    json r = Js.Normal data ->
    Js.property data "question_text" = Js.Undefined ->
    question_request_fails (Resolved r)
| question_options_not_array r data :
    json r = Js.Normal data ->
    Js.isArray (Js.property data "options") = false ->
    question_request_fails (Resolved r).

(** A submission may go to the network: there is a question with a truthy
    [id], and the selected answer is truthy. *)
Definition may_submit (s : State) : Prop :=
  Js.truthy (Js.get_optional (question s) "id") = true
  /\ Js.truthy (selectedAnswer s) = true.

(** The ways a submission that has reached the network can fail. *)
Inductive submit_request_fails : reply -> Prop :=
| submit_transport_error e :
    submit_request_fails (Rejected e)
| submit_status_not_2xx r :
    ok r = false -> submit_request_fails (Resolved r)
| submit_body_unreadable r e :
    json r = Js.Throw e -> submit_request_fails (Resolved r)
| submit_is_correct_not_boolean r data :
    json r = Js.Normal data ->
    Js.is_boolean (Js.property data "is_correct") = false ->
    submit_request_fails (Resolved r)
| submit_steps_not_array r data :
    json r = Js.Normal data ->
    Js.isArray (Js.property data "solution_steps") = false ->
    submit_request_fails (Resolved r).

(** The React state of [MathTutor] other than [loading]. *)
Definition same_quiz (s s' : State) : Prop :=
  topic s' = topic s /\ difficulty s' = difficulty s
  /\ question s' = question s /\ selectedAnswer s' = selectedAnswer s
  /\ feedback s' = feedback s.

(** Everything but the toast list. *)
Definition same_but_toasts (s s' : State) : Prop :=
  same_quiz s s' /\ loading s' = loading s /\ clock s' = clock s
  /\ timers s' = timers s /\ console s' = console s
  /\ requests s' = requests s.

(** What is left of a toast list once the entries bearing [rid] are gone:
    the other entries, each where it was relative to the others. *)
Inductive without_id (rid : string) : list Toast -> list Toast -> Prop :=
| without_id_nil :
    without_id rid [] []
| without_id_drop entry before after :
    id entry = rid -> without_id rid before after ->
    without_id rid (entry :: before) after
| without_id_keep entry before after :
    id entry <> rid -> without_id rid before after ->
    without_id rid (entry :: before) (entry :: after).

(** ** Sample payloads and states

    The scenario of the specification: topic "algebra", difficulty "beginner",
    the question "2+2=?" with the options "3" and "4", and its feedback. *)

Definition sample_question : Js.value :=
  Js.Obj [("id", Js.Num 1); ("question_text", Js.Str "2+2=?");
          ("options", Js.Arr [Js.Obj [("text", Js.Str "3")];
                              Js.Obj [("text", Js.Str "4")]])].

Definition sample_feedback : Js.value :=
  Js.Obj [("is_correct", Js.Bool true); ("explanation", Js.Str "...");
          ("solution_steps", Js.Arr [Js.Str "Add 2 and 2"])].

(** The same question under the identifier 0. *)
Definition question_zero : Js.value :=
  Js.Obj [("id", Js.Num 0); ("question_text", Js.Str "2+2=?");
          ("options", Js.Arr [Js.Obj [("text", Js.Str "3")];
                              Js.Obj [("text", Js.Str "4")]])].

(** A feedback whose [is_correct] is the string "true". *)
Definition feedback_untyped : Js.value :=
  Js.Obj [("is_correct", Js.Str "true"); ("explanation", Js.Str "...");
          ("solution_steps", Js.Arr [Js.Str "Add 2 and 2"])].

Definition ok_200 (data : Js.value) : Response :=
  {| status := 200; json := Js.Normal data |}.

Definition error_500 : Response :=
  {| status := 500; json := Js.Throw Js.SyntaxError |}.

(** Topic and difficulty chosen. *)
Definition chosen : State :=
  setDifficulty "beginner" (setTopic "algebra" initial).

(** The question on screen, "4" selected. *)
Definition answering : State :=
  setSelectedAnswer (Js.Str "4")
    (fetchQuestion "t0" (Resolved (ok_200 sample_question)) chosen).

(** A second question and its feedback. *)
Definition next_question : Js.value :=
  Js.Obj [("id", Js.Num 2); ("question_text", Js.Str "3+3=?");
          ("options", Js.Arr [Js.Obj [("text", Js.Str "6")];
                              Js.Obj [("text", Js.Str "7")]])].


(** A session in which an answer is submitted twice and, while the second
    submission is in its delay, "Try Another Question" brings up the next
    question, which is answered in turn.  Every reply takes 200 ms.  Seven
    seconds in, the timer of the second submission (due at 10600) is still
    pending. *)
Definition overlapping : list event :=
  [SelectTopic "algebra"; SelectDifficulty "beginner";
   ClickGetQuestion "t0" 200 (Resolved (ok_200 sample_question));
   SelectOption 1;
   ClickSubmitAnswer "t1" 200 (Resolved (ok_200 sample_feedback));
   Wait 5000;
   ClickSubmitAnswer "t2" 200 (Resolved (ok_200 sample_feedback));
   Wait 1000;
   ClickTryAnother "t3" 200 (Resolved (ok_200 next_question));
   SelectOption 1;
   Wait 200].

(** ** The page as an event loop

    [handle] runs a handler from the click to its end.  Here the handler is
    suspended at its [await] and resumed when its [fetch] settles, and
    anything the page allows may happen in between: other clicks, other
    replies, timers. *)

(** A handler suspended at [await fetch(...)]. *)
Inductive call : Type := FetchQuestion | SubmitAnswer.

Record Page : Type := {
  now : State;
  suspended : list call
}.

(** The page when [MathTutor] mounts. *)
Definition opened : Page := {| now := initial; suspended := [] |}.

Inductive input : Type :=
| ChooseTopic (v : string)
| ChooseDifficulty (v : string)
| ChooseOption (index : nat)
| PressGetQuestion (rid : string)
| PressSubmitAnswer (rid : string)
| PressTryAnother (rid : string)
| Settle (n : nat) (rid : string) (p : reply)
  (* the [fetch] of the suspended handler number [n] settles as [p] *)
| Elapse (ms : Z).

(** The handler returns, or is suspended behind those already waiting. *)
Definition proceed (c : call) (pr : progress) (pg : Page) : Page :=
  match pr with
  | Returned s => {| now := s; suspended := suspended pg |}
  | Awaiting s => {| now := s; suspended := (suspended pg ++ [c])%list |}
  end.

Definition resume (c : call) (rid : string) (p : reply) (s : State) : State :=
  match c with
  | FetchQuestion => fetchQuestion_resume rid p s
  | SubmitAnswer => submitAnswer_resume rid p s
  end.

Definition without_nth {A : Type} (n : nat) (l : list A) : list A :=
  (firstn n l ++ skipn (S n) l)%list.

(** [None] where the control is not rendered or is disabled, where no handler
    number [n] is suspended, or where time would run backwards.  The selects
    hand their setter the [value] of one of their items, the radio group
    the [value] of the item picked, whatever that value is.  [respond] goes
    by the handlers and the state alone: once a render has failed React
    takes the tree down, and what [respond] accepts from then on is of no
    consequence for the page. *)
Definition respond (i : input) (pg : Page) : option Page :=
  let s := now pg in
  match i with
  | ChooseTopic v =>
      if existsb (fun t => (fst t =? v)%string) topics
      then Some {| now := setTopic v s; suspended := suspended pg |}
      else None
  | ChooseDifficulty v =>
      if existsb (fun d => (fst d =? v)%string) difficulties
      then Some {| now := setDifficulty v s; suspended := suspended pg |}
      else None
  | ChooseOption index =>
      if Js.truthy (question s) then
        match nth_error (option_texts (question s)) index with
        | Some text => Some {| now := setSelectedAnswer text s;
                               suspended := suspended pg |}
        | None => None
        end
      else None
  | PressGetQuestion rid =>
      (* disabled={!topic || !difficulty || loading} *)
      if negb (Js.truthy_string (topic s))
         || negb (Js.truthy_string (difficulty s)) || loading s
      then None
      else Some (proceed FetchQuestion (fetchQuestion_start rid s) pg)
  | PressSubmitAnswer rid =>
      (* {question && ( ... disabled={!selectedAnswer || loading} ... )} *)
      if Js.truthy (question s)
         && negb (negb (Js.truthy (selectedAnswer s)) || loading s)
      then Some (proceed SubmitAnswer (submitAnswer_start rid s) pg)
      else None
  | PressTryAnother rid =>
      (* {feedback && ( ... <Button onClick={fetchQuestion}> ... )} *)
      if Js.truthy (feedback s)
      then Some (proceed FetchQuestion (fetchQuestion_start rid s) pg)
      else None
  | Settle n rid p =>
      match nth_error (suspended pg) n with
      | Some c => Some {| now := resume c rid p s;
                          suspended := without_nth n (suspended pg) |}
      | None => None
      end
  | Elapse ms =>
      if 0 <=? ms
      then Some {| now := advance_to (clock s + ms) s;
                   suspended := suspended pg |}
      else None
  end.

Fixpoint play (inputs : list input) (pg : Page) : option Page :=
  match inputs with
  | [] => Some pg
  | i :: rest =>
      match respond i pg with
      | Some pg' => play rest pg'
      | None => None
      end
  end.

(** *** What holds of every page that can be reached *)

(** The checks a payload has passed when [setQuestion] is reached. *)
Definition accepts_question (data : Js.value) : bool :=
  Js.truthy (Js.property data "id")
  && Js.truthy (Js.property data "question_text")
  && Js.isArray (Js.property data "options").

(** The checks a payload has passed when the feedback timer is set. *)
Definition accepts_feedback (data : Js.value) : bool :=
  Js.is_boolean (Js.property data "is_correct")
  && Js.isArray (Js.property data "solution_steps").

(** Question and feedback are [null] or payloads that passed the checks, and
    so are the payloads waiting in timers. *)
Definition well_shaped (s : State) : Prop :=
  (question s = Js.Null \/ accepts_question (question s) = true)
  /\ (feedback s = Js.Null \/ accepts_feedback (feedback s) = true)
  /\ Forall (fun x => forall data, action x = ShowFeedback data ->
                                   accepts_feedback data = true) (timers s).

(** Every pending timer falls due within the next 5000 ms. *)
Definition timers_in_window (s : State) : Prop :=
  Forall (fun x => clock s < due x <= clock s + 5000) (timers s).

(** Every toast has its removal pending. *)
Definition toasts_covered (s : State) : Prop :=
  Forall (fun entry => exists x, In x (timers s)
                                 /\ action x = RemoveToast (id entry))
    (toasts s).

(** Every toast is one raised by [handleError]. *)
Definition only_error_notices (s : State) : Prop :=
  Forall (fun entry => title entry = Some "Error"
                       /\ variant entry = Destructive) (toasts s).

(** While loading is true a handler is suspended or a feedback timer is
    pending. *)
Definition loading_accounted (pg : Page) : Prop :=
  loading (now pg) = true ->
  suspended pg <> [] \/ existsb is_feedback_timer (timers (now pg)) = true.

(** Until topic and difficulty are both chosen nothing has happened. *)
Definition idle_until_chosen (pg : Page) : Prop :=
  topic (now pg) = "" \/ difficulty (now pg) = "" ->
  question (now pg) = Js.Null /\ feedback (now pg) = Js.Null
  /\ suspended pg = [] /\ timers (now pg) = [] /\ toasts (now pg) = [].

Definition sound (s : State) : Prop :=
  well_shaped s /\ timers_in_window s /\ toasts_covered s
  /\ only_error_notices s.

Definition invariant (pg : Page) : Prop :=
  sound (now pg) /\ loading_accounted pg /\ idle_until_chosen pg.

(** The page after [inputs], from the opening of the page. *)
Definition after (inputs : list input) : Page :=
  match play inputs opened with
  | Some pg => pg
  | None => opened
  end.

(** A visit in which the answer "4" is submitted and the server fails. *)
Definition visit_failed : list input :=
  [ChooseTopic "algebra"; ChooseDifficulty "beginner";
   PressGetQuestion "t0"; Elapse 200;
   Settle 0 "t0" (Resolved (ok_200 sample_question));
   ChooseOption 1;
   PressSubmitAnswer "t1"; Elapse 200;
   Settle 0 "t1" (Resolved error_500)].

(** A visit in which the answer "4" is submitted and graded. *)
Definition visit_graded : list input :=
  [ChooseTopic "algebra"; ChooseDifficulty "beginner";
   PressGetQuestion "t0"; Elapse 200;
   Settle 0 "t0" (Resolved (ok_200 sample_question));
   ChooseOption 1;
   PressSubmitAnswer "t1"; Elapse 200;
   Settle 0 "t1" (Resolved (ok_200 sample_feedback))].

(** ** What [MathTutor] returns *)

Inductive setter : Type := SetTopic | SetDifficulty | SetSelectedAnswer.

(** The values given to attributes in the JSX of this repository. *)
Inductive prop : Type :=
| PStr (s : string)
| PBool (b : bool)
| PIndex (n : nat)
| PValue (v : Js.value)
| POnClick (c : call)
| POnValueChange (f : setter).

(** A React element, with [className] (typed [string | undefined]) apart
    from its other attributes, or another child: literal text, the value of
    an expression, an array of children. *)
Inductive node : Type :=
| Text (s : string)
| Show (v : Js.value)
| Many (items : list node)
| Element (type : string) (className : option string)
    (attributes : list (string * prop)) (children : list node).

(** [`option-${index}`] *)
Definition option_id (index : nat) : string :=
  "option-" ++ NilEmpty.string_of_uint (Nat.to_uint index).

(** [array.map((item, index) => ...)], from [index] on. *)
Fixpoint map_from {A B : Type} (f : A -> nat -> Js.completion B)
    (index : nat) (l : list A) : Js.completion (list B) :=
  match l with
  | [] => Js.Normal []
  | item :: rest =>
      b <- f item index ;;
      bs <- map_from f (S index) rest ;;
      Js.Normal (b :: bs)
  end.

(** [v.map(f)]: only an array has a [map] to call. *)
Definition map_value {B : Type} (v : Js.value)
    (f : Js.value -> nat -> Js.completion B) : Js.completion (list B) :=
  match v with
  | Js.Arr items => map_from f 0%nat items
  | _ => Js.Throw Js.TypeError
  end.

(** [<Loader2 className="mr-2 h-4 w-4 animate-spin" />] *)
Definition spinner : node :=
  Element "Loader2" (Some "mr-2 h-4 w-4 animate-spin") [] [].

(** The first card: the two selects and "Get Question". *)
Definition selection_card (s : State) : node :=
  Element "Card" (Some "mb-8") []
    [Element "CardHeader" None []
       [Element "CardTitle" None [] [Text "Interactive Math Tutor"]];
     Element "CardContent" None []
       [Element "div" (Some "grid grid-cols-2 gap-4 mb-6") []
          [Element "div" None []
             [Element "Label" None [] [Text "Topic"];
              Element "Select" None
                [("value", PStr (topic s));
                 ("onValueChange", POnValueChange SetTopic)]
                [Element "SelectTrigger" None []
                   [Element "SelectValue" None
                      [("placeholder", PStr "Select topic")] []];
                 Element "SelectContent" None []
                   [Many (map (fun t =>
                                 Element "SelectItem" None
                                   [("key", PStr (fst t));
                                    ("value", PStr (fst t))]
                                   [Text (snd t)])
                            topics)]]];
           Element "div" None []
             [Element "Label" None [] [Text "Difficulty"];
              Element "Select" None
                [("value", PStr (difficulty s));
                 ("onValueChange", POnValueChange SetDifficulty)]
                [Element "SelectTrigger" None []
                   [Element "SelectValue" None
                      [("placeholder", PStr "Select difficulty")] []];
                 Element "SelectContent" None []
                   [Many (map (fun d =>
                                 Element "SelectItem" None
                                   [("key", PStr (fst d));
                                    ("value", PStr (fst d))]
                                   [Text (snd d)])
                            difficulties)]]]];
        Element "Button" (Some "w-full")
          [("onClick", POnClick FetchQuestion);
           ("disabled", PBool (negb (Js.truthy_string (topic s))
                               || negb (Js.truthy_string (difficulty s))
                               || loading s))]
          [if loading s then spinner else Text "Get Question"]]].

(** [(option, index) => ( <div key={index} ...> ... </div> )] *)
Definition option_row (option : Js.value) (index : nat)
  : Js.completion node :=
  value <- Js.get option "text" ;;
  label <- Js.get option "text" ;;
  Js.Normal
    (Element "div" (Some "flex items-center space-x-2")
       [("key", PIndex index)]
       [Element "RadioGroupItem" None
          [("value", PValue value); ("id", PStr (option_id index))] [];
        Element "Label" None [("htmlFor", PStr (option_id index))]
          [Show label]]).

(** [{question && ( <Card className="mb-8"> ... </Card> )}] *)
Definition question_card (s : State) : Js.completion node :=
  if Js.truthy (question s) then
    rows <- map_value (Js.property (question s) "options") option_row ;;
    Js.Normal
      (Element "Card" (Some "mb-8") []
         [Element "CardHeader" None []
            [Element "CardTitle" None [] [Text "Question"]];
          Element "CardContent" None []
            [Element "p" (Some "text-lg mb-6") []
               [Show (Js.property (question s) "question_text")];
             Element "RadioGroup" (Some "space-y-4")
               [("value", PValue (selectedAnswer s));
                ("onValueChange", POnValueChange SetSelectedAnswer)]
               [Many rows];
             Element "Button" (Some "w-full mt-6")
               [("onClick", POnClick SubmitAnswer);
                ("disabled", PBool (negb (Js.truthy (selectedAnswer s))
                                    || loading s))]
               [if loading s then spinner else Text "Submit Answer"]]])
  else Js.Normal (Show (question s)).

(** [(step, index) => <li key={index}>{step}</li>] *)
Definition step_item (step : Js.value) (index : nat) : Js.completion node :=
  Js.Normal (Element "li" None [("key", PIndex index)] [Show step]).

(** [{feedback && ( <Card> ... </Card> )}] *)
Definition feedback_card (s : State) : Js.completion node :=
  if Js.truthy (feedback s) then
    steps <- map_value (Js.property (feedback s) "solution_steps") step_item ;;
    Js.Normal
      (Element "Card" None []
         [Element "CardHeader" None []
            [Element "CardTitle" None []
               [Text (if Js.truthy (Js.property (feedback s) "is_correct")
                      then "Correct! 🎉" else "Not quite right")]];
          Element "CardContent" None []
            [Element "Alert" (Some "mb-4") []
               [Element "AlertDescription" None []
                  [Show (Js.property (feedback s) "explanation")]];
             Element "div" (Some "space-y-4") []
               [Element "h3" (Some "font-semibold") []
                  [Text "Solution Steps:"];
                Element "ol" (Some "list-decimal list-inside space-y-2") []
                  [Many steps]];
             Element "Button" (Some "w-full mt-6")
               [("onClick", POnClick FetchQuestion)]
               [Text "Try Another Question"]]])
  else Js.Normal (Show (feedback s)).

(** The [return ( ... )] of [MathTutor]. *)
Definition render (s : State) : Js.completion node :=
  question_part <- question_card s ;;
  feedback_part <- feedback_card s ;;
  Js.Normal
    (Element "div" (Some "container mx-auto p-4 max-w-3xl") []
       [selection_card s; question_part; feedback_part]).

(** ** The presentational components *)

(** [`... ${className}`] *)
Definition interpolate (className : option string) : string :=
  match className with
  | Some c => c
  | None => "undefined"
  end.

Definition has_attribute (name : string) (attributes : list (string * prop))
  : bool :=
  existsb (fun a => (fst a =? name)%string) attributes.

(** [<x a=... {...props} />]: the attributes written before the spread
    stand unless [props] has them too. *)
Definition spread (before props : list (string * prop))
  : list (string * prop) :=
  (filter (fun a => negb (has_attribute (fst a) props)) before ++ props)%list.

Definition Card (className : option string) (props : list (string * prop))
    (children : list node) : node :=
  Element "div"
    (Some ("rounded-lg border border-gray-200 bg-white shadow-sm "
           ++ interpolate className))
    props children.

Definition CardHeader (className : option string)
    (props : list (string * prop)) (children : list node) : node :=
  Element "div" (Some ("flex flex-col space-y-1.5 p-6 " ++ interpolate className))
    props children.

Definition CardTitle (className : option string)
    (props : list (string * prop)) (children : list node) : node :=
  Element "h3"
    (Some ("text-2xl font-semibold leading-none tracking-tight text-gray-900 "
           ++ interpolate className))
    props children.

Definition CardContent (className : option string)
    (props : list (string * prop)) (children : list node) : node :=
  Element "div" (Some ("p-6 pt-0 " ++ interpolate className)) props children.

Definition Button (className : option string) (props : list (string * prop))
    (children : list node) : node :=
  Element "button"
    (Some ("inline-flex items-center justify-center cursor-pointer rounded-md text-sm font-medium transition-colors focus:outline-none focus:ring-2 focus:ring-blue-500 focus:ring-offset-2 disabled:opacity-50 disabled:pointer-events-none bg-blue-600 text-white hover:bg-blue-700 h-10 px-4 py-2 "
           ++ interpolate className))
    props children.

Definition Alert (className : option string) (props : list (string * prop))
    (children : list node) : node :=
  Element "div"
    (Some ("relative w-full rounded-lg border p-4 [&>svg~*]:pl-7 [&>svg+div]:translate-y-[-3px] [&>svg]:absolute [&>svg]:left-4 [&>svg]:top-4 [&>svg]:text-foreground "
           ++ interpolate className))
    (spread [("role", PStr "alert")] props) children.

Definition AlertDescription (className : option string)
    (props : list (string * prop)) (children : list node) : node :=
  Element "div" (Some ("text-sm [&_p]:leading-relaxed " ++ interpolate className))
    props children.

(** [React.forwardRef(({ className, ...props }, ref) => ...)], rendered
    without a ref as everywhere in [MathTutor]. *)
Definition RadioGroup (className : option string)
    (props : list (string * prop)) (children : list node) : node :=
  Element "RadioGroupPrimitive.Root"
    (Some ("grid gap-2 " ++ interpolate className))
    (spread props [("ref", PValue Js.Null)]) children.

Definition RadioGroupItem (className : option string)
    (props : list (string * prop)) (children : list node) : node :=
  Element "RadioGroupPrimitive.Item"
    (Some ("aspect-square h-4 w-4 rounded-full border border-primary text-primary ring-offset-background focus:outline-none focus-visible:ring-2 focus-visible:ring-ring focus-visible:ring-offset-2 disabled:cursor-not-allowed disabled:opacity-50 "
           ++ interpolate className))
    (spread [("ref", PValue Js.Null)] props)
    [Element "RadioGroupPrimitive.Indicator"
       (Some "flex items-center justify-center") []
       [Element "div" (Some "h-2 w-2 rounded-full bg-blue-600") [] []]].

(** The component of this repository that goes by the name [type]. *)
Definition component (type : string)
  : option (option string -> list (string * prop) -> list node -> node) :=
  if (type =? "Card")%string then Some Card
  else if (type =? "CardHeader")%string then Some CardHeader
  else if (type =? "CardTitle")%string then Some CardTitle
  else if (type =? "CardContent")%string then Some CardContent
  else if (type =? "Button")%string then Some Button
  else if (type =? "Alert")%string then Some Alert
  else if (type =? "AlertDescription")%string then Some AlertDescription
  else if (type =? "RadioGroup")%string then Some RadioGroup
  else if (type =? "RadioGroupItem")%string then Some RadioGroupItem
  else None.

(** The tree with the components of this repository called; [Select],
    [Label], [Loader2] and the Radix primitives stay as they are. *)
Fixpoint expand (n : node) : node :=
  match n with
  | Text _ | Show _ => n
  | Many items => Many (map expand items)
  | Element type className attributes children =>
      match component type with
      | Some f => f className attributes (map expand children)
      | None => Element type className attributes (map expand children)
      end
  end.

(** What React makes of a value in child position: a string or a number is
    text, a boolean, [null] and [undefined] are nothing, an array stands for
    its elements; an object is refused ("Objects are not valid as a React
    child") and the render fails. *)
Fixpoint renderable (v : Js.value) : bool :=
  match v with
  | Js.Arr items => forallb renderable items
  | Js.Obj _ => false
  | _ => true
  end.

Fixpoint mountable (n : node) : bool :=
  match n with
  | Text _ => true
  | Show v => renderable v
  | Many items => forallb mountable items
  | Element _ _ _ children => forallb mountable children
  end.

(** The tree the page shows in state [s]: what [MathTutor] returns, with the
    components of this repository called.  [None] where nothing is shown,
    the render having failed: [MathTutor] throws, or a payload value in
    child position is an object.  The application has no error boundary.
    The list of [useToast] is no part of the tree: [MathTutor] takes only
    [toast] from the hook, and neither it nor a component of this
    repository renders the list. *)
Definition screen (s : State) : option node :=
  match render s with
  | Js.Normal tree =>
      if mountable (expand tree) then Some (expand tree) else None
  | Js.Throw _ => None
  end.

(** The strings a tree shows as text. *)
Fixpoint texts (n : node) : list string :=
  match n with
  | Text t => [t]
  | Show (Js.Str t) => [t]
  | Show _ => []
  | Many items => flat_map texts items
  | Element _ _ _ children => flat_map texts children
  end.

(** *** What the screen offers *)

Definition is_disabled (attributes : list (string * prop)) : bool :=
  existsb (fun a => match a with
                    | (name, PBool true) => (name =? "disabled")%string
                    | _ => false
                    end) attributes.

Definition on_click (attributes : list (string * prop)) : list call :=
  flat_map (fun a => match a with
                     | (name, POnClick c) =>
                         if (name =? "onClick")%string then [c] else []
                     | _ => []
                     end) attributes.

(** The handlers of the buttons that are not disabled. *)
Fixpoint pressable (n : node) : list call :=
  match n with
  | Text _ | Show _ => []
  | Many items => flat_map pressable items
  | Element type _ attributes children =>
      ((if (type =? "button")%string && negb (is_disabled attributes)
        then on_click attributes else [])
       ++ flat_map pressable children)%list
  end.

Definition changes (f : setter) (attributes : list (string * prop)) : bool :=
  existsb (fun a => match a with
                    | (name, POnValueChange g) =>
                        (name =? "onValueChange")%string
                        && match f, g with
                           | SetTopic, SetTopic
                           | SetDifficulty, SetDifficulty
                           | SetSelectedAnswer, SetSelectedAnswer => true
                           | _, _ => false
                           end
                    | _ => false
                    end) attributes.

Definition value_of (attributes : list (string * prop)) : list Js.value :=
  flat_map (fun a => match a with
                     | (name, PStr v) =>
                         if (name =? "value")%string then [Js.Str v] else []
                     | (name, PValue v) =>
                         if (name =? "value")%string then [v] else []
                     | _ => []
                     end) attributes.

(** The [value]s of the elements in [n]. *)
Fixpoint values (n : node) : list Js.value :=
  match n with
  | Text _ | Show _ => []
  | Many items => flat_map values items
  | Element _ _ attributes children =>
      (value_of attributes ++ flat_map values children)%list
  end.

(** The values among which the control that calls [f] lets the user choose:
    the [value]s of the items inside the element with [onValueChange={f}]. *)
Fixpoint choices (f : setter) (n : node) : list Js.value :=
  match n with
  | Text _ | Show _ => []
  | Many items => flat_map (choices f) items
  | Element _ _ attributes children =>
      if changes f attributes then flat_map values children
      else flat_map (choices f) children
  end.

(** [!(!topic || !difficulty || loading)] *)
Definition can_get_question (s : State) : bool :=
  negb (negb (Js.truthy_string (topic s))
        || negb (Js.truthy_string (difficulty s)) || loading s).

(** [question && !(!selectedAnswer || loading)] *)
Definition can_submit (s : State) : bool :=
  Js.truthy (question s)
  && negb (negb (Js.truthy (selectedAnswer s)) || loading s).

(** Some element of [q.options] is [null]. *)
Definition has_null_option (q : Js.value) : bool :=
  match Js.property q "options" with
  | Js.Arr items => existsb Js.nullish items
  | _ => false
  end.

(** The payloads in state have an object where the page shows text: as the
    question's text or the text of an option, as the explanation or a
    solution step. *)
Definition shows_object (s : State) : bool :=
  (Js.truthy (question s)
   && (negb (renderable (Js.property (question s) "question_text"))
       || existsb (fun text => negb (renderable text))
            (option_texts (question s))))
  || (Js.truthy (feedback s)
      && (negb (renderable (Js.property (feedback s) "explanation"))
          || match Js.property (feedback s) "solution_steps" with
             | Js.Arr steps => existsb (fun step => negb (renderable step)) steps
             | _ => false
             end)).

(** A question whose only option is [null], and a visit that fetches it. *)
Definition question_null_option : Js.value :=
  Js.Obj [("id", Js.Num 3); ("question_text", Js.Str "1+1=?");
          ("options", Js.Arr [Js.Null])].

Definition visit_null_option : list input :=
  [ChooseTopic "algebra"; ChooseDifficulty "beginner";
   PressGetQuestion "t0"; Elapse 200;
   Settle 0 "t0" (Resolved (ok_200 question_null_option))].

(** A question whose options are numbers, and a visit on which the second
    of them is picked. *)
Definition question_numbers : Js.value :=
  Js.Obj [("id", Js.Num 5); ("question_text", Js.Str "2+2=?");
          ("options", Js.Arr [Js.Obj [("text", Js.Num 3)];
                              Js.Obj [("text", Js.Num 4)]])].

Definition visit_numbers : list input :=
  [ChooseTopic "algebra"; ChooseDifficulty "beginner";
   PressGetQuestion "t0"; Elapse 200;
   Settle 0 "t0" (Resolved (ok_200 question_numbers));
   ChooseOption 1].

(** A question whose text is an object, and a visit that fetches it. *)
Definition question_object_text : Js.value :=
  Js.Obj [("id", Js.Num 6);
          ("question_text", Js.Obj [("latex", Js.Str "2+2=?")]);
          ("options", Js.Arr [Js.Obj [("text", Js.Str "3")];
                              Js.Obj [("text", Js.Str "4")]])].

Definition visit_object_text : list input :=
  [ChooseTopic "algebra"; ChooseDifficulty "beginner";
   PressGetQuestion "t0"; Elapse 200;
   Settle 0 "t0" (Resolved (ok_200 question_object_text))].

(** The state after the session [es], from the initial state. *)
Definition after_session (es : list event) : State :=
  match session es initial with
  | Some s => s
  | None => initial
  end.




(** The selected answer is empty or the text of an option of the question. *)
Definition answer_offered (s : State) : Prop :=
  selectedAnswer s = Js.Str ""
  \/ In (selectedAnswer s) (option_texts (question s)).

(** ** Values and guards *)

Lemma truthy_string_true (x : string) :
  Js.truthy_string x = true <-> x <> "".
Proof.
  unfold Js.truthy_string. rewrite negb_true_iff. apply String.eqb_neq.
Qed.

Lemma truthy_string_false (x : string) :
  Js.truthy_string x = false <-> x = "".
Proof.
  unfold Js.truthy_string. rewrite negb_false_iff. apply String.eqb_eq.
Qed.

(** Only an object has a property that is not [undefined]. *)
Lemma property_defined (v : Js.value) (k : string) :
  Js.property v k <> Js.Undefined -> Js.nullish v = false.
Proof. destruct v; simpl; congruence. Qed.

Lemma get_not_nullish (v : Js.value) (k : string) :
  Js.nullish v = false -> Js.get v k = Js.Normal (Js.property v k).
Proof. intros H. unfold Js.get. now rewrite H. Qed.

Lemma truthy_defined (v : Js.value) :
  Js.truthy v = true -> v <> Js.Undefined.
Proof. destruct v; simpl; congruence. Qed.

Lemma get_optional_truthy (v : Js.value) (k : string) :
  Js.truthy (Js.get_optional v k) = true ->
  Js.nullish v = false /\ Js.get_optional v k = Js.property v k.
Proof.
  unfold Js.get_optional. destruct (Js.nullish v); simpl; [congruence | auto].
Qed.

(** [invalid_question] decides the three checks, or throws on [null]. *)
Lemma invalid_question_spec (data : Js.value) :
  invalid_question data =
    if Js.nullish data then Js.Throw Js.TypeError
    else Js.Normal (negb (Js.truthy (Js.property data "id"))
                    || negb (Js.truthy (Js.property data "question_text"))
                    || negb (Js.isArray (Js.property data "options"))).
Proof.
  unfold invalid_question, Js.get.
  destruct (Js.nullish data); simpl; [reflexivity |].
  destruct (Js.truthy (Js.property data "id")); simpl; [| reflexivity].
  destruct (Js.truthy (Js.property data "question_text")); reflexivity.
Qed.

Lemma invalid_feedback_spec (data : Js.value) :
  invalid_feedback data =
    if Js.nullish data then Js.Throw Js.TypeError
    else Js.Normal (negb (Js.is_boolean (Js.property data "is_correct"))
                    || negb (Js.isArray (Js.property data "solution_steps"))).
Proof.
  unfold invalid_feedback, Js.get.
  destruct (Js.nullish data); simpl; [reflexivity |].
  destruct (Js.is_boolean (Js.property data "is_correct")); reflexivity.
Qed.

(** A failing reply makes the [try] block of [fetchQuestion] throw, with the
    state as it was. *)
Lemma fetchQuestion_try_fails (p : reply) (s : State) :
  question_request_fails p -> exists e, fetchQuestion_try p s = Js.Throw e.
Proof.
  intros H. unfold fetchQuestion_try.
  destruct H as [e | r Hr | r e Hr | r data Hr Hd | r data Hr Hd | r data Hr Hd];
    simpl; try (now eexists);
    try (rewrite Hr; simpl; now eexists);
    destruct (ok r); simpl; try (now eexists);
    rewrite Hr; simpl; try (now eexists);
    rewrite invalid_question_spec; destruct (Js.nullish data); simpl;
    try (now eexists); rewrite Hd; simpl; rewrite ?orb_true_r; now eexists.
Qed.

Lemma submitAnswer_try_fails (p : reply) (s : State) :
  submit_request_fails p -> exists e, submitAnswer_try p s = Js.Throw e.
Proof.
  intros H. unfold submitAnswer_try.
  destruct H as [e | r Hr | r e Hr | r data Hr Hd | r data Hr Hd];
    simpl; try (now eexists);
    try (rewrite Hr; simpl; now eexists);
    destruct (ok r); simpl; try (now eexists);
    rewrite Hr; simpl; try (now eexists);
    rewrite invalid_feedback_spec; destruct (Js.nullish data); simpl;
    try (now eexists); rewrite Hd; simpl; rewrite ?orb_true_r; now eexists.
Qed.

(** ** The two halves of each handler *)

Lemma fetchQuestion_start_blocked (rid : string) (s : State) :
  topic s = "" \/ difficulty s = "" ->
  fetchQuestion_start rid s =
    Returned (toast rid (Some "Invalid Input")
                (Some "Please select both topic and difficulty")
                (Some Destructive) s).
Proof.
  intros H. unfold fetchQuestion_start.
  destruct H as [H | H]; apply truthy_string_false in H; rewrite H; simpl;
    [reflexivity | now rewrite orb_true_r].
Qed.

Lemma fetchQuestion_start_sends (rid : string) (s : State) :
  topic s <> "" -> difficulty s <> "" ->
  fetchQuestion_start rid s =
    Awaiting (send {| url := Questions;
                      body := Js.Obj [("topic", Js.Str (topic s));
                                      ("difficulty", Js.Str (difficulty s))] |}
                (setLoading true s)).
Proof.
  intros Ht Hd. unfold fetchQuestion_start.
  apply truthy_string_true in Ht, Hd. now rewrite Ht, Hd.
Qed.

Lemma fetchQuestion_resume_failure (rid : string) (p : reply) (s : State) :
  question_request_fails p ->
  exists e,
    fetchQuestion_resume rid p s =
      setLoading false
        (handleError rid e "Failed to fetch question. Please try again." s).
Proof.
  intros H. destruct (fetchQuestion_try_fails p s H) as [e He].
  exists e. unfold fetchQuestion_resume. now rewrite He.
Qed.

Lemma fetchQuestion_resume_success (rid : string) (r : Response)
    (data : Js.value) (s : State) :
  ok r = true -> json r = Js.Normal data ->
  Js.truthy (Js.property data "id") = true ->
  Js.truthy (Js.property data "question_text") = true ->
  Js.isArray (Js.property data "options") = true ->
  fetchQuestion_resume rid (Resolved r) s =
    setLoading false
      (setFeedback Js.Null
         (setSelectedAnswer (Js.Str "") (setQuestion data s))).
Proof.
  intros Hok Hjson Hid Htext Hopts.
  unfold fetchQuestion_resume, fetchQuestion_try. simpl.
  rewrite Hok, Hjson. simpl. rewrite invalid_question_spec.
  rewrite (property_defined data "id" (truthy_defined _ Hid)).
  simpl. now rewrite Hid, Htext, Hopts.
Qed.

Lemma submitAnswer_start_blocked (rid : string) (s : State) :
  Js.truthy (Js.get_optional (question s) "id") = false
  \/ Js.truthy (selectedAnswer s) = false ->
  submitAnswer_start rid s =
    Returned (toast rid (Some "Invalid Submission")
                (Some "Please select an answer before submitting")
                (Some Destructive) s).
Proof.
  intros H. unfold submitAnswer_start.
  destruct H as [H | H]; rewrite H; simpl;
    [reflexivity | now rewrite orb_true_r].
Qed.

Lemma submitAnswer_start_sends (rid : string) (s : State) :
  may_submit s ->
  submitAnswer_start rid s =
    Awaiting (send {| url := Submit;
                      body := Js.Obj [("question_id",
                                       Js.property (question s) "id");
                                      ("selected_answer",
                                       selectedAnswer s)] |}
                (setLoading true s)).
Proof.
  intros [Hq Ha]. unfold submitAnswer_start.
  rewrite Hq, Ha. simpl.
  destruct (get_optional_truthy _ _ Hq) as [Hn _].
  now rewrite (get_not_nullish _ _ Hn).
Qed.

Lemma submitAnswer_resume_failure (rid : string) (p : reply) (s : State) :
  submit_request_fails p ->
  exists e, submitAnswer_resume rid p s = submitAnswer_catch rid e s.
Proof.
  intros H. destruct (submitAnswer_try_fails p s H) as [e He].
  exists e. unfold submitAnswer_resume. now rewrite He.
Qed.

Lemma submitAnswer_resume_malformed (rid : string) (r : Response)
    (data : Js.value) (s : State) :
  ok r = true -> json r = Js.Normal data ->
  Js.is_boolean (Js.property data "is_correct") = false
  \/ Js.isArray (Js.property data "solution_steps") = false ->
  submitAnswer_resume rid (Resolved r) s =
    submitAnswer_catch rid
      (if Js.nullish data then Js.TypeError
       else Js.Error "Invalid feedback format received") s.
Proof.
  intros Hok Hjson Hbad.
  unfold submitAnswer_resume, submitAnswer_try. simpl.
  rewrite Hok, Hjson. simpl. rewrite invalid_feedback_spec.
  destruct (Js.nullish data); simpl; [reflexivity |].
  destruct Hbad as [H | H]; rewrite H; simpl; rewrite ?orb_true_r;
    reflexivity.
Qed.


(** ** Request Question *)

(** C5, as far as the code goes.  Whenever topic or difficulty is
    empty, [fetchQuestion] returns before its [fetch]: no request is sent,
    the "Invalid Input" notice is appended to the toast list of [useToast],
    and question, selected answer, feedback and loading are as they were.
    [MathTutor] returns the same tree as before, and the page shows the
    same: the toast list is rendered nowhere. *)
Theorem fetchQuestion_without_selection (rid : string) (p : reply) (s : State) :
  topic s = "" \/ difficulty s = "" ->
  let s' := fetchQuestion rid p s in
  fetchQuestion_start rid s = Returned s'
  /\ requests s' = requests s
  /\ toasts s' = (toasts s ++ [notice rid "Invalid Input"
                                "Please select both topic and difficulty"])%list
  /\ question s' = question s
  /\ selectedAnswer s' = selectedAnswer s
  /\ feedback s' = feedback s
  /\ loading s' = loading s
  /\ render s' = render s
  /\ screen s' = screen s.
Proof.
  intros H s'. subst s'. unfold fetchQuestion.
  rewrite (fetchQuestion_start_blocked rid s H).
  do 7 (split; [reflexivity |]). split; reflexivity.
Qed.

Lemma fetchQuestion_without_selection_witness :
  (topic initial = "" \/ difficulty initial = "")
  /\ requests (fetchQuestion "t1" (Resolved (ok_200 sample_question)) initial)
     = []
  /\ toasts (fetchQuestion "t1" (Resolved (ok_200 sample_question)) initial)
     = [notice "t1" "Invalid Input" "Please select both topic and difficulty"]
  /\ question (fetchQuestion "t1" (Resolved (ok_200 sample_question)) initial)
     = Js.Null
  /\ screen (fetchQuestion "t1" (Resolved (ok_200 sample_question)) initial)
     = screen initial.
Proof.
  assert (H : topic initial = "" \/ difficulty initial = "")
    by (left; reflexivity).
  split; [exact H |].
  pose proof (fetchQuestion_without_selection "t1"
                (Resolved (ok_200 sample_question)) initial H) as W.
  cbv zeta in W. destruct W as (_ & Hr & Ht & Hq & _ & _ & _ & _ & Hs).
  split; [exact Hr |]. split; [exact Ht |]. split; [exact Hq | exact Hs].
Defined.

(** C5 as it is written fails at "user-visible".  On the page as it opens,
    "Get Question" run without a topic puts the notice in the toast list,
    and the screen is what it was: neither the title nor the description of
    the notice is among the texts it shows. *)
Lemma fetchQuestion_notice_not_shown :
  (topic initial = "" \/ difficulty initial = "")
  /\ (let s' := fetchQuestion "t1" (Resolved (ok_200 sample_question))
                  initial in
      toasts s'
      = [notice "t1" "Invalid Input" "Please select both topic and difficulty"]
      /\ screen s' = screen initial
      /\ exists dom,
           screen s' = Some dom
           /\ ~ In "Invalid Input" (texts dom)
           /\ ~ In "Please select both topic and difficulty" (texts dom)).
Proof.
  split; [left; reflexivity |]. cbv zeta.
  split; [reflexivity |]. split; [reflexivity |].
  eexists. split; [vm_compute; reflexivity |].
  split; intros H; simpl in H;
    repeat (destruct H as [H | H]; [discriminate H |]); exact H.
Qed.

(** C3. Whenever a question request reaches the network and fails (the
    promise rejects, the status is not 2xx, or the payload lacks [id], lacks
    [question_text] or has [options] that is not an array), the "Failed to
    fetch question" notice is appended to the toasts, the question is as it
    was (and so are selected answer and feedback), and loading is false when
    the handler is done. *)
Theorem fetchQuestion_failure (rid : string) (p : reply) (s : State) :
  topic s <> "" -> difficulty s <> "" ->
  question_request_fails p ->
  let s' := fetchQuestion rid p s in
  toasts s' = (toasts s ++ [notice rid "Error"
                              "Failed to fetch question. Please try again."])%list
  /\ question s' = question s
  /\ selectedAnswer s' = selectedAnswer s
  /\ feedback s' = feedback s
  /\ loading s' = false.
Proof.
  intros Ht Hd Hp s'. subst s'. unfold fetchQuestion.
  rewrite (fetchQuestion_start_sends rid s Ht Hd).
  destruct (fetchQuestion_resume_failure rid p
              (send {| url := Questions;
                       body := Js.Obj [("topic", Js.Str (topic s));
                                       ("difficulty", Js.Str (difficulty s))] |}
                 (setLoading true s)) Hp) as [e He].
  rewrite He. simpl. tauto.
Qed.

Lemma fetchQuestion_failure_witness :
  topic chosen <> "" /\ difficulty chosen <> ""
  /\ question_request_fails (Resolved error_500)
  /\ toasts (fetchQuestion "t1" (Resolved error_500) chosen)
     = [notice "t1" "Error" "Failed to fetch question. Please try again."]
  /\ question (fetchQuestion "t1" (Resolved error_500) chosen) = Js.Null
  /\ loading (fetchQuestion "t1" (Resolved error_500) chosen) = false.
Proof.
  assert (Ht : topic chosen <> "") by (simpl; discriminate).
  assert (Hd : difficulty chosen <> "") by (simpl; discriminate).
  assert (Hp : question_request_fails (Resolved error_500))
    by (apply question_status_not_2xx; reflexivity).
  pose proof (fetchQuestion_failure "t1" (Resolved error_500) chosen Ht Hd Hp)
    as W.
  cbv zeta in W. destruct W as (Hn & Hq & _ & _ & Hl).
  do 3 (split; [assumption |]).
  split; [exact Hn |]. split; [exact Hq | exact Hl].
Defined.

(** C4. Whenever the response is 2xx and its payload has a truthy [id], a
    truthy [question_text] and an array [options], [fetchQuestion] makes that
    payload the question, empties the selected answer and sets the feedback
    to [null]; no notice is raised and loading is false when it is done. *)
Theorem fetchQuestion_success (rid : string) (r : Response) (data : Js.value)
    (s : State) :
  topic s <> "" -> difficulty s <> "" ->
  ok r = true -> json r = Js.Normal data ->
  Js.truthy (Js.property data "id") = true ->
  Js.truthy (Js.property data "question_text") = true ->
  Js.isArray (Js.property data "options") = true ->
  let s' := fetchQuestion rid (Resolved r) s in
  question s' = data
  /\ selectedAnswer s' = Js.Str ""
  /\ feedback s' = Js.Null
  /\ loading s' = false
  /\ toasts s' = toasts s.
Proof.
  intros Ht Hd Hok Hjson Hid Htext Hopts s'. subst s'. unfold fetchQuestion.
  rewrite (fetchQuestion_start_sends rid s Ht Hd).
  rewrite (fetchQuestion_resume_success rid r data _ Hok Hjson Hid Htext Hopts).
  simpl. tauto.
Qed.

Lemma fetchQuestion_success_witness :
  topic answering <> "" /\ difficulty answering <> ""
  /\ ok (ok_200 sample_question) = true
  /\ selectedAnswer answering = Js.Str "4"
  /\ question (fetchQuestion "t1" (Resolved (ok_200 sample_question)) answering)
     = sample_question
  /\ selectedAnswer
       (fetchQuestion "t1" (Resolved (ok_200 sample_question)) answering)
     = Js.Str ""
  /\ feedback
       (fetchQuestion "t1" (Resolved (ok_200 sample_question)) answering)
     = Js.Null.
Proof.
  assert (Ht : topic answering <> "") by (simpl; discriminate).
  assert (Hd : difficulty answering <> "") by (simpl; discriminate).
  pose proof (fetchQuestion_success "t1" (ok_200 sample_question)
                sample_question answering Ht Hd eq_refl eq_refl eq_refl
                eq_refl eq_refl) as W.
  cbv zeta in W. destruct W as (Hq & Ha & Hf & _).
  do 2 (split; [assumption |]). do 2 (split; [reflexivity |]).
  split; [exact Hq |]. split; [exact Ha | exact Hf].
Defined.

(** C10. A payload whose [id] or [question_text] is falsy is turned down
    like a malformed one, although the field is there: the response with the
    identifier 0, the text "2+2=?" and an array of options is logged as
    "Invalid question format received", raises the "Failed to fetch
    question" notice and leaves the question as it was; so does every 2xx
    payload with a falsy [id] or a falsy [question_text]. *)
Theorem fetchQuestion_rejects_falsy_id :
  Js.member "id" [("id", Js.Num 0); ("question_text", Js.Str "2+2=?")]
    = Some (Js.Num 0)
  /\ Js.property question_zero "id" = Js.Num 0
  /\ Js.property question_zero "question_text" = Js.Str "2+2=?"
  /\ Js.isArray (Js.property question_zero "options") = true
  /\ (let s' := fetchQuestion "t1" (Resolved (ok_200 question_zero)) chosen in
      console s' = [Js.Error "Invalid question format received"]
      /\ toasts s' = [notice "t1" "Error"
                        "Failed to fetch question. Please try again."]
      /\ question s' = question chosen
      /\ loading s' = false)
  /\ (forall rid r data s,
        topic s <> "" -> difficulty s <> "" ->
        ok r = true -> json r = Js.Normal data -> Js.nullish data = false ->
        Js.truthy (Js.property data "id") = false
        \/ Js.truthy (Js.property data "question_text") = false ->
        let s' := fetchQuestion rid (Resolved r) s in
        console s' = (console s
                      ++ [Js.Error "Invalid question format received"])%list
        /\ toasts s' = (toasts s
                        ++ [notice rid "Error"
                              "Failed to fetch question. Please try again."])%list
        /\ question s' = question s
        /\ loading s' = false).
Proof.
  do 4 (split; [reflexivity |]).
  split; [simpl; tauto |].
  intros rid r data s Ht Hd Hok Hjson Hn Hfalsy s'. subst s'.
  unfold fetchQuestion. rewrite (fetchQuestion_start_sends rid s Ht Hd).
  unfold fetchQuestion_resume, fetchQuestion_try. simpl.
  rewrite Hok, Hjson. simpl. rewrite invalid_question_spec, Hn.
  destruct Hfalsy as [H | H]; rewrite H; simpl; rewrite ?orb_true_r;
    simpl; tauto.
Qed.

Lemma fetchQuestion_rejects_falsy_id_witness :
  topic answering <> "" /\ difficulty answering <> ""
  /\ Js.truthy (Js.property question_zero "id") = false
  /\ question (fetchQuestion "t2" (Resolved (ok_200 question_zero)) answering)
     = sample_question.
Proof.
  assert (Ht : topic answering <> "") by (simpl; discriminate).
  assert (Hd : difficulty answering <> "") by (simpl; discriminate).
  destruct fetchQuestion_rejects_falsy_id as (_ & _ & _ & _ & _ & W).
  specialize (W "t2" (ok_200 question_zero) question_zero answering Ht Hd
                eq_refl eq_refl eq_refl (or_introl eq_refl)).
  cbv zeta in W. destruct W as (_ & _ & Hq & _).
  do 2 (split; [assumption |]). split; [reflexivity | exact Hq].
Defined.

(** ** Submit Answer *)

Lemma truthy_get_optional (v : Js.value) (k : string) :
  Js.truthy (Js.get_optional v k) = Js.truthy (Js.property v k).
Proof. destruct v; reflexivity. Qed.

(** C6. Whenever there is no question, or its [id] is falsy, or no answer is
    selected (the selected answer is the empty string it starts as, or
    another falsy value), [submitAnswer] returns before its [fetch]: no
    request is sent,
    the "Invalid Submission" notice is appended to the toasts, and question,
    selected answer, feedback and loading are as they were. *)
Theorem submitAnswer_without_answer (rid : string) (p : reply) (s : State) :
  question s = Js.Null
  \/ Js.truthy (Js.property (question s) "id") = false
  \/ Js.truthy (selectedAnswer s) = false ->
  let s' := submitAnswer rid p s in
  submitAnswer_start rid s = Returned s'
  /\ requests s' = requests s
  /\ toasts s' = (toasts s ++ [notice rid "Invalid Submission"
                                "Please select an answer before submitting"])%list
  /\ question s' = question s
  /\ selectedAnswer s' = selectedAnswer s
  /\ feedback s' = feedback s
  /\ loading s' = loading s.
Proof.
  intros H s'. subst s'. unfold submitAnswer.
  assert (Hb : Js.truthy (Js.get_optional (question s) "id") = false
               \/ Js.truthy (selectedAnswer s) = false).
  { rewrite truthy_get_optional.
    destruct H as [H | [H | H]]; [left; now rewrite H | now left | now right]. }
  rewrite (submitAnswer_start_blocked rid s Hb). simpl. tauto.
Qed.

Lemma submitAnswer_without_answer_witness :
  (question chosen = Js.Null
   \/ Js.truthy (Js.property (question chosen) "id") = false
   \/ Js.truthy (selectedAnswer chosen) = false)
  /\ requests (submitAnswer "t1" (Resolved (ok_200 sample_feedback)) chosen)
     = requests chosen
  /\ toasts (submitAnswer "t1" (Resolved (ok_200 sample_feedback)) chosen)
     = [notice "t1" "Invalid Submission"
          "Please select an answer before submitting"]
  /\ loading (submitAnswer "t1" (Resolved (ok_200 sample_feedback)) chosen)
     = false.
Proof.
  assert (H : question chosen = Js.Null
              \/ Js.truthy (Js.property (question chosen) "id") = false
              \/ Js.truthy (selectedAnswer chosen) = false)
    by (left; reflexivity).
  split; [exact H |].
  pose proof (submitAnswer_without_answer "t1"
                (Resolved (ok_200 sample_feedback)) chosen H) as W.
  cbv zeta in W. destruct W as (_ & Hr & Ht & _ & _ & _ & Hl).
  split; [exact Hr |]. split; [exact Ht | exact Hl].
Defined.

(** C2. Whenever a submission has gone out and the payload of the response
    has an [is_correct] that is not a boolean or a [solution_steps] that is
    not an array, [submitAnswer] raises the "Failed to submit answer" notice,
    leaves the feedback as it was, sets no timer to show feedback (the only
    timer it sets removes the notice), and has loading false when it returns;
    under a 2xx status the error it logs is "Invalid feedback format
    received" (a [TypeError] when the payload is [null]). *)
Theorem submitAnswer_malformed_feedback (rid : string) (r : Response)
    (data : Js.value) (s : State) :
  may_submit s ->
  json r = Js.Normal data ->
  Js.is_boolean (Js.property data "is_correct") = false
  \/ Js.isArray (Js.property data "solution_steps") = false ->
  let s' := submitAnswer rid (Resolved r) s in
  toasts s' = (toasts s ++ [notice rid "Error"
                              "Failed to submit answer. Please try again."])%list
  /\ feedback s' = feedback s
  /\ loading s' = false
  /\ timers s' = (timers s ++ [{| due := clock s + 5000;
                                  action := RemoveToast rid |}])%list
  /\ (ok r = true -> Js.nullish data = false ->
      console s' = (console s
                    ++ [Js.Error "Invalid feedback format received"])%list).
Proof.
  intros Hs Hjson Hbad s'. subst s'. unfold submitAnswer.
  rewrite (submitAnswer_start_sends rid s Hs).
  destruct (ok r) eqn:Hok.
  - rewrite (submitAnswer_resume_malformed rid r data _ Hok Hjson Hbad).
    simpl. repeat split; try reflexivity.
    intros _ Hn. now rewrite Hn.
  - unfold submitAnswer_resume, submitAnswer_try. simpl. rewrite Hok. simpl.
    repeat split; try reflexivity. discriminate.
Qed.

Lemma submitAnswer_malformed_feedback_witness :
  may_submit answering
  /\ Js.is_boolean (Js.property feedback_untyped "is_correct") = false
  /\ feedback (submitAnswer "t1" (Resolved (ok_200 feedback_untyped)) answering)
     = Js.Null
  /\ loading (submitAnswer "t1" (Resolved (ok_200 feedback_untyped)) answering)
     = false
  /\ timers (submitAnswer "t1" (Resolved (ok_200 feedback_untyped)) answering)
     = [{| due := 5000; action := RemoveToast "t1" |}]
  /\ console (submitAnswer "t1" (Resolved (ok_200 feedback_untyped)) answering)
     = [Js.Error "Invalid feedback format received"].
Proof.
  assert (Hs : may_submit answering) by (split; reflexivity).
  pose proof (submitAnswer_malformed_feedback "t1" (ok_200 feedback_untyped)
                feedback_untyped answering Hs eq_refl (or_introl eq_refl))
    as W.
  cbv zeta in W. destruct W as (_ & Hf & Hl & Ht & Hc).
  specialize (Hc eq_refl eq_refl).
  split; [exact Hs |]. split; [reflexivity |].
  split; [exact Hf |]. split; [exact Hl |]. split; [exact Ht | exact Hc].
Defined.

(** A try block that completes normally has set the timer and done nothing
    else. *)
Lemma submitAnswer_try_normal (p : reply) (s s' : State) :
  submitAnswer_try p s = Js.Normal s' ->
  exists data, s' = setTimeout (ShowFeedback data) 5000 s.
Proof.
  unfold submitAnswer_try. destruct p as [e | r]; simpl; [discriminate |].
  destruct (ok r); simpl; [| discriminate].
  destruct (json r) as [data | e]; simpl; [| discriminate].
  destruct (invalid_feedback data) as [[|] | e]; simpl; try discriminate.
  intros H. injection H as <-. now exists data.
Qed.

Lemma fetchQuestion_try_normal (p : reply) (s s' : State) :
  fetchQuestion_try p s = Js.Normal s' ->
  exists data,
    s' = setFeedback Js.Null
           (setSelectedAnswer (Js.Str "") (setQuestion data s)).
Proof.
  unfold fetchQuestion_try. destruct p as [e | r]; simpl; [discriminate |].
  destruct (ok r); simpl; [| discriminate].
  destruct (json r) as [data | e]; simpl; [| discriminate].
  destruct (invalid_question data) as [[|] | e]; simpl; try discriminate.
  intros H. injection H as <-. now exists data.
Qed.

(** Whatever the reply, [submitAnswer] itself writes none of topic,
    difficulty, question, selected answer and feedback. *)
Lemma submitAnswer_resume_same_quiz (rid : string) (p : reply) (s : State) :
  same_quiz s (submitAnswer_resume rid p s).
Proof.
  unfold submitAnswer_resume.
  destruct (submitAnswer_try p s) as [s' | e] eqn:E.
  - destruct (submitAnswer_try_normal p s s' E) as [data ->].
    repeat split.
  - repeat split.
Qed.

Lemma submitAnswer_same_quiz (rid : string) (p : reply) (s : State) :
  same_quiz s (submitAnswer rid p s).
Proof.
  unfold submitAnswer, submitAnswer_start.
  destruct (negb (Js.truthy (Js.get_optional (question s) "id"))
            || negb (Js.truthy (selectedAnswer s))).
  - repeat split.
  - destruct (Js.get (question s) "id") as [qid | e].
    + apply (submitAnswer_resume_same_quiz rid p
               (send {| url := Submit;
                        body := Js.Obj [("question_id", qid);
                                        ("selected_answer",
                                         selectedAnswer s)] |}
                  (setLoading true s))).
    + repeat split.
Qed.

Lemma fetchQuestion_resume_selection (rid : string) (p : reply) (s : State) :
  topic (fetchQuestion_resume rid p s) = topic s
  /\ difficulty (fetchQuestion_resume rid p s) = difficulty s.
Proof.
  unfold fetchQuestion_resume.
  destruct (fetchQuestion_try p s) as [s' | e] eqn:E.
  - destruct (fetchQuestion_try_normal p s s' E) as [data ->]. now split.
  - now split.
Qed.

Lemma fetchQuestion_selection (rid : string) (p : reply) (s : State) :
  topic (fetchQuestion rid p s) = topic s
  /\ difficulty (fetchQuestion rid p s) = difficulty s.
Proof.
  unfold fetchQuestion, fetchQuestion_start.
  destruct (negb (Js.truthy_string (topic s))
            || negb (Js.truthy_string (difficulty s))).
  - now split.
  - apply (fetchQuestion_resume_selection rid p
             (send {| url := Questions;
                      body := Js.Obj [("topic", Js.Str (topic s));
                                      ("difficulty", Js.Str (difficulty s))] |}
                (setLoading true s))).
Qed.

(** ** Timers *)

Section Invariants.

Variable P : State -> Prop.
Variable Q : timer -> Prop.
Hypothesis step : forall x st, Q x -> P st -> P (run (action x) st).

(** What every callback in [l] keeps, running them all keeps. *)
Lemma run_all_keeps (l : list timer) :
  Forall Q l -> forall st, P st -> P (run_all l st).
Proof.
  unfold run_all. induction 1 as [| x l Hx _ IH]; intros st Hst; simpl.
  - exact Hst.
  - apply IH. now apply step.
Qed.

(** What one callback in [l] brings about and the others keep holds once
    all have run. *)
Lemma run_all_reaches (x0 : timer) (l : list timer) :
  (forall st, P (run (action x0) st)) ->
  Forall Q l -> In x0 l -> forall st, P (run_all l st).
Proof.
  intros Hx0. unfold run_all.
  induction 1 as [| x l Hx Hl IH]; intros Hin st; simpl.
  - destruct Hin.
  - destruct Hin as [-> | Hin].
    + apply (run_all_keeps l Hl). apply Hx0.
    + now apply IH.
Qed.

End Invariants.

Lemma in_insert_by_due (x y : timer) (l : list timer) :
  In x (insert_by_due y l) <-> x = y \/ In x l.
Proof.
  induction l as [| z l IH]; simpl.
  - intuition congruence.
  - destruct (due y <=? due z); simpl; rewrite ?IH; intuition congruence.
Qed.

(** Ordering the timers neither loses nor adds one. *)
Lemma in_firing_order_iff (x : timer) (l : list timer) :
  In x (in_firing_order l) <-> In x l.
Proof.
  induction l as [| y l IH]; simpl; [tauto |].
  rewrite in_insert_by_due, IH. intuition congruence.
Qed.

Lemma insert_by_due_sorted (x : timer) (l : list timer) :
  Sorted (fun a b => due a <= due b) l ->
  Sorted (fun a b => due a <= due b) (insert_by_due x l).
Proof.
  induction 1 as [| y l Hl IH Hy]; simpl.
  - repeat constructor.
  - destruct (due x <=? due y) eqn:E.
    + apply Z.leb_le in E. repeat constructor; assumption.
    + apply Z.leb_gt in E. constructor; [exact IH |].
      destruct Hy as [| z l Hz]; simpl.
      * constructor. lia.
      * destruct (due x <=? due z); constructor; lia.
Qed.

(** The callbacks run by nondecreasing due time. *)
Lemma in_firing_order_sorted (l : list timer) :
  Sorted (fun a b => due a <= due b) (in_firing_order l).
Proof.
  induction l as [| x l IH]; simpl.
  - constructor.
  - now apply insert_by_due_sorted.
Qed.

Lemma Forall_in_firing_order (Q : timer -> Prop) (l : list timer) :
  Forall Q l -> Forall Q (in_firing_order l).
Proof.
  rewrite !Forall_forall. intros H x Hx. apply H.
  now apply in_firing_order_iff.
Qed.

Lemma Forall_filter_weaken {A : Type} (Q : A -> Prop) (f : A -> bool)
    (l : list A) :
  Forall Q l -> Forall Q (filter f l).
Proof.
  rewrite !Forall_forall. intros H x Hx. apply filter_In in Hx. now apply H.
Qed.

(** [advance_to], spelled out. *)
Lemma advance_to_unfold (t : Z) (s : State) :
  advance_to t s =
    run_all (in_firing_order (filter (is_due t) (timers s)))
      (with_clock (Z.max (clock s) t)
         (with_timers (filter (fun x => negb (is_due t x)) (timers s)) s)).
Proof. reflexivity. Qed.

(** No callback touches the timers, the clock, the console, the requests, or
    topic, difficulty, question and selected answer. *)
Lemma run_all_frame (l : list timer) (s : State) :
  topic (run_all l s) = topic s
  /\ difficulty (run_all l s) = difficulty s
  /\ question (run_all l s) = question s
  /\ selectedAnswer (run_all l s) = selectedAnswer s
  /\ clock (run_all l s) = clock s
  /\ timers (run_all l s) = timers s
  /\ console (run_all l s) = console s
  /\ requests (run_all l s) = requests s.
Proof.
  apply (run_all_keeps
           (fun st => topic st = topic s /\ difficulty st = difficulty s
                      /\ question st = question s
                      /\ selectedAnswer st = selectedAnswer s
                      /\ clock st = clock s /\ timers st = timers s
                      /\ console st = console s /\ requests st = requests s)
           (fun _ => True)).
  - intros x st _ H. destruct (action x); simpl; exact H.
  - apply Forall_forall. trivial.
  - repeat split.
Qed.

Lemma advance_to_frame (t : Z) (s : State) :
  topic (advance_to t s) = topic s
  /\ difficulty (advance_to t s) = difficulty s
  /\ question (advance_to t s) = question s
  /\ selectedAnswer (advance_to t s) = selectedAnswer s
  /\ clock (advance_to t s) = Z.max (clock s) t
  /\ timers (advance_to t s) = filter (fun x => negb (is_due t x)) (timers s)
  /\ console (advance_to t s) = console s
  /\ requests (advance_to t s) = requests s.
Proof.
  rewrite advance_to_unfold.
  exact (run_all_frame _
           (with_clock (Z.max (clock s) t)
              (with_timers (filter (fun x => negb (is_due t x)) (timers s))
                 s))).
Qed.

(** ** Submissions that fail *)

(** C7. Whenever [submitAnswer] fails (it is turned down before the request,
    the question missing or its [id] or the selected answer falsy,
    or the promise rejects, or the status is not 2xx, or the body cannot be
    read, or the payload has an [is_correct] that is not a boolean or a
    [solution_steps] that is not an array), question, selected answer and
    feedback are as they were, and so are topic and difficulty; among the
    pending timers those that will show a feedback are the same as before. *)
Theorem submitAnswer_failure_keeps_quiz (rid : string) (p : reply) (s : State) :
  (question s = Js.Null
   \/ Js.truthy (Js.property (question s) "id") = false
   \/ Js.truthy (selectedAnswer s) = false)
  \/ submit_request_fails p ->
  let s' := submitAnswer rid p s in
  question s' = question s
  /\ selectedAnswer s' = selectedAnswer s
  /\ feedback s' = feedback s
  /\ topic s' = topic s
  /\ difficulty s' = difficulty s
  /\ filter is_feedback_timer (timers s') = filter is_feedback_timer (timers s).
Proof.
  intros H s'. subst s'.
  destruct (submitAnswer_same_quiz rid p s) as (Ht & Hd & Hq & Ha & Hf).
  repeat (split; [assumption |]).
  assert (Hquiet : forall e st,
             filter is_feedback_timer (timers (submitAnswer_catch rid e st))
             = filter is_feedback_timer (timers st)).
  { intros e st. simpl. rewrite filter_app. simpl. apply app_nil_r. }
  assert (Hquiet' : forall title description st,
             filter is_feedback_timer
               (timers (toast rid title description (Some Destructive) st))
             = filter is_feedback_timer (timers st)).
  { intros title description st. simpl. rewrite filter_app. simpl.
    apply app_nil_r. }
  unfold submitAnswer, submitAnswer_start.
  destruct (negb (Js.truthy (Js.get_optional (question s) "id"))
            || negb (Js.truthy (selectedAnswer s))) eqn:Hguard.
  - apply Hquiet'.
  - destruct (Js.get (question s) "id") as [qid | e];
      [| now rewrite Hquiet].
    destruct H as [H | H].
    + exfalso. apply orb_false_elim in Hguard. destruct Hguard as [Hg1 Hg2].
      rewrite negb_false_iff in Hg1, Hg2. rewrite truthy_get_optional in Hg1.
      destruct H as [H | [H | H]]; [rewrite H in Hg1 | |]; simpl in *;
        congruence.
    + match goal with
      | |- context [submitAnswer_resume rid p ?st] =>
          destruct (submitAnswer_resume_failure rid p st H) as [e ->];
          now rewrite (Hquiet e st)
      end.
Qed.

Lemma submitAnswer_failure_keeps_quiz_witness :
  submit_request_fails (Resolved error_500)
  /\ question (submitAnswer "t1" (Resolved error_500) answering)
     = sample_question
  /\ selectedAnswer (submitAnswer "t1" (Resolved error_500) answering)
     = Js.Str "4"
  /\ feedback (submitAnswer "t1" (Resolved error_500) answering) = Js.Null.
Proof.
  assert (Hp : submit_request_fails (Resolved error_500))
    by (apply submit_status_not_2xx; reflexivity).
  pose proof (submitAnswer_failure_keeps_quiz "t1" (Resolved error_500)
                answering (or_intror Hp)) as W.
  cbv zeta in W. destruct W as (Hq & Ha & Hf & _).
  split; [exact Hp |]. split; [exact Hq |]. split; [exact Ha | exact Hf].
Defined.

(** ** Selection *)

(** C9. [fetchQuestion] and [submitAnswer] leave topic and difficulty as they
    were, whatever the reply, and so do the timers they set; of all that can
    happen on the page only choosing a topic changes the topic and only
    choosing a difficulty changes the difficulty. *)
Theorem selection_persists :
  (forall rid p s,
      topic (fetchQuestion rid p s) = topic s
      /\ difficulty (fetchQuestion rid p s) = difficulty s)
  /\ (forall rid p s,
        topic (submitAnswer rid p s) = topic s
        /\ difficulty (submitAnswer rid p s) = difficulty s)
  /\ (forall t s,
        topic (advance_to t s) = topic s
        /\ difficulty (advance_to t s) = difficulty s)
  /\ (forall t0 rid p s,
        topic (fetchQuestion_at t0 rid p s) = topic s
        /\ difficulty (fetchQuestion_at t0 rid p s) = difficulty s)
  /\ (forall t0 rid p s,
        topic (submitAnswer_at t0 rid p s) = topic s
        /\ difficulty (submitAnswer_at t0 rid p s) = difficulty s)
  /\ (forall e s s',
        handle e s = Some s' ->
        (topic s' = topic s \/ e = SelectTopic (topic s'))
        /\ (difficulty s' = difficulty s
            \/ e = SelectDifficulty (difficulty s'))).
Proof.
  assert (Hsubmit : forall rid p s,
             topic (submitAnswer rid p s) = topic s
             /\ difficulty (submitAnswer rid p s) = difficulty s).
  { intros rid p s.
    destruct (submitAnswer_same_quiz rid p s) as (Ht & Hd & _). now split. }
  assert (Hwait : forall t s,
             topic (advance_to t s) = topic s
             /\ difficulty (advance_to t s) = difficulty s).
  { intros t s. destruct (advance_to_frame t s) as (Ht & Hd & _). now split. }
  assert (Hfetch_at : forall t0 rid p s,
             topic (fetchQuestion_at t0 rid p s) = topic s
             /\ difficulty (fetchQuestion_at t0 rid p s) = difficulty s).
  { intros t0 rid p s. unfold fetchQuestion_at, fetchQuestion_start.
    destruct (negb (Js.truthy_string (topic s))
              || negb (Js.truthy_string (difficulty s))); [now split |].
    match goal with
    | |- context [fetchQuestion_resume rid p (advance_to t0 ?st)] =>
        destruct (fetchQuestion_resume_selection rid p (advance_to t0 st))
          as [-> ->];
        destruct (Hwait t0 st) as [-> ->]
    end.
    now split. }
  assert (Hsubmit_at : forall t0 rid p s,
             topic (submitAnswer_at t0 rid p s) = topic s
             /\ difficulty (submitAnswer_at t0 rid p s) = difficulty s).
  { intros t0 rid p s. unfold submitAnswer_at, submitAnswer_start.
    destruct (negb (Js.truthy (Js.get_optional (question s) "id"))
              || negb (Js.truthy (selectedAnswer s))); [now split |].
    destruct (Js.get (question s) "id") as [qid | e]; [| now split].
    match goal with
    | |- context [submitAnswer_resume rid p (advance_to t0 ?st)] =>
        destruct (submitAnswer_resume_same_quiz rid p (advance_to t0 st))
          as (-> & -> & _);
        destruct (Hwait t0 st) as [-> ->]
    end.
    now split. }
  split; [exact fetchQuestion_selection |].
  split; [exact Hsubmit |].
  split; [exact Hwait |].
  split; [exact Hfetch_at |].
  split; [exact Hsubmit_at |].
  intros e s s'. destruct e; cbv beta iota delta [handle];
    repeat match goal with
           | |- (if ?c then _ else _) = _ -> _ => destruct c
           | |- match ?c with Some _ => _ | None => _ end = _ -> _ =>
               destruct c
           end;
    intros H; try discriminate H; injection H as <-.
  - split; [now right | now left].
  - split; [now left | now right].
  - split; now left.
  - destruct (Hfetch_at (clock s + latency) rid p s). split; now left.
  - destruct (Hsubmit_at (clock s + latency) rid p s). split; now left.
  - destruct (Hfetch_at (clock s + latency) rid p s). split; now left.
  - destruct (Hwait (clock s + ms) s). split; now left.
Qed.

Lemma selection_persists_witness :
  handle (ClickSubmitAnswer "t1" 200 (Resolved (ok_200 sample_feedback)))
    answering
  = Some (submitAnswer_at 200 "t1" (Resolved (ok_200 sample_feedback))
            answering)
  /\ topic (submitAnswer_at 200 "t1" (Resolved (ok_200 sample_feedback))
              answering) = "algebra"
  /\ difficulty (fetchQuestion "t1" (Resolved error_500) answering)
     = "beginner".
Proof.
  destruct selection_persists as (Hfetch & _ & _ & _ & _ & Hpage).
  assert (H : handle (ClickSubmitAnswer "t1" 200
                        (Resolved (ok_200 sample_feedback))) answering
              = Some (submitAnswer_at 200 "t1"
                        (Resolved (ok_200 sample_feedback)) answering))
    by reflexivity.
  split; [exact H |]. split.
  - destruct (proj1 (Hpage _ _ _ H)) as [Ht | Ht]; [exact Ht | discriminate Ht].
  - exact (proj2 (Hfetch "t1" (Resolved error_500) answering)).
Defined.

(** ** The toast notifier *)

Lemma without_id_filter (rid : string) (l : list Toast) :
  without_id rid l (filter (fun toast => negb (id toast =? rid)%string) l).
Proof.
  induction l as [| entry l IH]; simpl.
  - constructor.
  - destruct (id entry =? rid)%string eqn:E; simpl.
    + apply without_id_drop; [now apply String.eqb_eq | exact IH].
    + apply without_id_keep; [now apply String.eqb_neq | exact IH].
Qed.

(** Callbacks only ever take entries out of the toast list. *)
Lemma run_keeps_absent (rid : string) (x : timer) (st : State) :
  Forall (fun entry => id entry <> rid) (toasts st) ->
  Forall (fun entry => id entry <> rid) (toasts (run (action x) st)).
Proof.
  intros H. destruct (action x) as [rid' | data]; simpl; [| exact H].
  rewrite Forall_forall in *. intros entry Hin.
  apply filter_In in Hin. now apply H.
Qed.

Lemma run_RemoveToast_absent (rid : string) (st : State) :
  Forall (fun entry => id entry <> rid) (toasts (run (RemoveToast rid) st)).
Proof.
  simpl. apply Forall_forall. intros entry Hin.
  apply filter_In in Hin. destruct Hin as [_ Hin].
  apply negb_true_iff in Hin. now apply String.eqb_neq.
Qed.

(** An entry stays while the callbacks that run remove other identifiers. *)
Lemma run_keeps_entry (entry : Toast) (x : timer) (st : State) :
  action x <> RemoveToast (id entry) ->
  In entry (toasts st) -> In entry (toasts (run (action x) st)).
Proof.
  intros Hx Hin. destruct (action x) as [rid' | data]; simpl; [| exact Hin].
  apply filter_In. split; [exact Hin |].
  apply negb_true_iff, String.eqb_neq. congruence.
Qed.

(** C8, without the freshness the code does not give.  [toast] appends one
    entry, carrying the identifier drawn for it, at the end of the toast
    list, the entries already there staying in their order, and sets one
    timer, due 5000 ms later; it changes nothing else.  The callback of that
    timer removes the entries that bear the identifier and no other, keeps
    the rest in their order and changes nothing but the toast list.  The
    timer is still pending at any time before it is due, and once it is due
    no entry bearing the identifier is left.  Where no removal pending
    bears the identifier, the new entry is in the list at any time before
    its timer is due. *)
Theorem toast_appends_then_expires (rid : string)
    (title description : option string) (variant : option Variant)
    (s : State) :
  let entry := {| id := rid; title := title; description := description;
                  variant := match variant with
                             | Some v => v
                             | None => Default
                             end |} in
  let expiry := {| due := clock s + 5000; action := RemoveToast rid |} in
  let s' := toast rid title description variant s in
  toasts s' = (toasts s ++ [entry])%list
  /\ timers s' = (timers s ++ [expiry])%list
  /\ same_quiz s s' /\ loading s' = loading s /\ clock s' = clock s
  /\ console s' = console s /\ requests s' = requests s
  /\ (forall st,
        without_id rid (toasts st) (toasts (run (RemoveToast rid) st))
        /\ same_but_toasts st (run (RemoveToast rid) st))
  /\ (forall t, t < clock s + 5000 -> In expiry (timers (advance_to t s')))
  /\ (forall t, clock s + 5000 <= t ->
        ~ In expiry (timers (advance_to t s'))
        /\ Forall (fun e => id e <> rid) (toasts (advance_to t s')))
  /\ (Forall (fun x => action x <> RemoveToast rid) (timers s) ->
      forall t, t < clock s + 5000 -> In entry (toasts (advance_to t s'))).
Proof.
  intros entry expiry s'.
  assert (Htimers : timers s' = (timers s ++ [expiry])%list) by reflexivity.
  split; [reflexivity |]. split; [exact Htimers |].
  split; [repeat split |]. do 4 (split; [reflexivity |]).
  split; [| split; [| split]].
  - intros st. split; [apply without_id_filter | repeat split].
  - intros t Ht. destruct (advance_to_frame t s') as (_ & _ & _ & _ & _ & -> & _).
    apply filter_In. split.
    + rewrite Htimers. apply in_or_app. right. now left.
    + apply negb_true_iff. apply Z.leb_gt. exact Ht.
  - intros t Ht. split.
    + destruct (advance_to_frame t s') as (_ & _ & _ & _ & _ & -> & _).
      intros Hin. apply filter_In in Hin. destruct Hin as [_ Hin].
      apply negb_true_iff in Hin. apply Z.leb_gt in Hin. simpl in Hin. lia.
    + rewrite advance_to_unfold.
      apply (run_all_reaches
               (fun st => Forall (fun e => id e <> rid) (toasts st))
               (fun _ => True)
               (fun x st _ H => run_keeps_absent rid x st H) expiry).
      * apply run_RemoveToast_absent.
      * apply Forall_forall. trivial.
      * apply in_firing_order_iff. apply filter_In. split.
        -- rewrite Htimers. apply in_or_app. right. now left.
        -- apply Z.leb_le. exact Ht.
  - intros Hfresh t Ht. rewrite advance_to_unfold.
    apply (run_all_keeps
             (fun st => In entry (toasts st))
             (fun x => action x <> RemoveToast rid)
             (fun x st Hx H => run_keeps_entry entry x st Hx H)).
    + apply Forall_in_firing_order. rewrite Htimers, filter_app. simpl.
      replace (is_due t expiry) with false
        by (symmetry; apply Z.leb_gt; exact Ht).
      rewrite app_nil_r. now apply Forall_filter_weaken.
    + simpl. apply in_or_app. right. now left.
Qed.

Lemma toast_appends_then_expires_witness :
  clock chosen + 5000 <= 5000
  /\ Forall (fun x => action x <> RemoveToast "t1") (timers chosen)
  /\ toasts (toast "t1" (Some "Error") None None chosen)
     = [{| id := "t1"; title := Some "Error"; description := None;
           variant := Default |}]
  /\ In {| id := "t1"; title := Some "Error"; description := None;
           variant := Default |}
       (toasts (advance_to 4999 (toast "t1" (Some "Error") None None chosen)))
  /\ Forall (fun e => id e <> "t1")
       (toasts (advance_to 5000 (toast "t1" (Some "Error") None None chosen))).
Proof.
  assert (H : clock chosen + 5000 <= 5000) by (simpl; lia).
  assert (Hfresh : Forall (fun x => action x <> RemoveToast "t1")
                     (timers chosen)) by constructor.
  pose proof (toast_appends_then_expires "t1" (Some "Error") None None chosen)
    as W.
  cbv zeta in W.
  destruct W as (Ht & _ & _ & _ & _ & _ & _ & _ & _ & Hdue & Hstays).
  split; [exact H |]. split; [exact Hfresh |]. split; [exact Ht |].
  split; [exact (Hstays Hfresh 4999 eq_refl) | exact (proj2 (Hdue 5000 H))].
Defined.

(** C8 as it is written fails where the identifier drawn is one in use;
    nothing in [toast] looks at the identifiers in the list.  A notice is
    raised at 0 under the identifier "a" and a second one at 3000 under the
    same: at 5000 the timer of the first removes both, the second 2000 ms
    after it was raised and 3000 ms before its own timer is due. *)
Lemma toast_removed_early_when_id_repeats :
  let first := {| id := "a"; title := Some "Error"; description := None;
                  variant := Default |} in
  let second := {| id := "a"; title := Some "Error";
                   description := Some "again"; variant := Default |} in
  let s := advance_to 3000 (toast "a" (Some "Error") None None initial) in
  let s' := toast "a" (Some "Error") (Some "again") None s in
  clock s = 3000
  /\ toasts s = [first]
  /\ timers s = [{| due := 5000; action := RemoveToast "a" |}]
  /\ toasts s' = [first; second]
  /\ timers s' = [{| due := 5000; action := RemoveToast "a" |};
                  {| due := 8000; action := RemoveToast "a" |}]
  /\ 5000 < clock s + 5000
  /\ toasts (advance_to 5000 s') = []
  /\ timers (advance_to 5000 s')
     = [{| due := 8000; action := RemoveToast "a" |}]
  /\ ~ (forall t, t < clock s + 5000 -> In second (toasts (advance_to t s'))).
Proof.
  cbv zeta. do 5 (split; [reflexivity |]). split; [reflexivity |].
  do 2 (split; [reflexivity |]).
  intros H. specialize (H 5000 eq_refl). vm_compute in H. exact H.
Qed.

(** ** The delay before feedback is shown *)


(** The callback that removes a toast leaves feedback and loading alone. *)
Lemma run_toast_timer (x : timer) (st : State) :
  is_feedback_timer x = false ->
  feedback (run (action x) st) = feedback st
  /\ loading (run (action x) st) = loading st.
Proof.
  unfold is_feedback_timer. destruct (action x); [now split | discriminate].
Qed.

(** While the pending timers only remove toasts, the passing of time changes
    neither feedback nor loading. *)
Lemma advance_to_quiet (t : Z) (s : State) :
  Forall (fun x => is_feedback_timer x = false) (timers s) ->
  feedback (advance_to t s) = feedback s
  /\ loading (advance_to t s) = loading s.
Proof.
  intros H. rewrite advance_to_unfold.
  apply (run_all_keeps
           (fun st => feedback st = feedback s /\ loading st = loading s)
           (fun x => is_feedback_timer x = false)).
  - intros x st Hx [Hf Hl].
    destruct (run_toast_timer x st Hx) as [-> ->]. now split.
  - now apply Forall_in_firing_order, Forall_filter_weaken.
  - now split.
Qed.

(** Once the one timer that shows a feedback is due, that feedback is shown
    and loading is false, whichever toasts are removed before or after it. *)
Lemma advance_to_shows (t : Z) (s : State) (x : timer) (data : Js.value) :
  In x (timers s) -> action x = ShowFeedback data -> due x <= t ->
  Forall (fun y => is_feedback_timer y = false \/ y = x) (timers s) ->
  feedback (advance_to t s) = data /\ loading (advance_to t s) = false.
Proof.
  intros Hin Hx Hdue Hall. rewrite advance_to_unfold.
  apply (run_all_reaches
           (fun st => feedback st = data /\ loading st = false)
           (fun y => is_feedback_timer y = false \/ y = x)) with (x0 := x).
  - intros y st [Hy | ->] [Hf Hl].
    + destruct (run_toast_timer y st Hy) as [-> ->]. now split.
    + rewrite Hx. now split.
  - intros st. rewrite Hx. now split.
  - now apply Forall_in_firing_order, Forall_filter_weaken.
  - apply in_firing_order_iff, filter_In. split; [exact Hin |].
    now apply Z.leb_le.
Qed.







Lemma timers_in_window_due_by (t0 : Z) (s : State) :
  timers_in_window s -> clock s <= t0 -> feedback_due_by (t0 + 5000) s.
Proof.
  unfold timers_in_window, feedback_due_by. rewrite !Forall_forall.
  intros H Ht x Hx _. specialize (H x Hx). lia.
Qed.




(** ** While the request is in flight *)

(** The timers that run while [fetchQuestion] waits for its reply change
    nothing of what it does to the question. *)
Lemma fetchQuestion_at_failure (t0 : Z) (rid : string) (p : reply) (s : State) :
  topic s <> "" -> difficulty s <> "" ->
  question_request_fails p ->
  let s' := fetchQuestion_at t0 rid p s in
  question s' = question s
  /\ loading s' = false
  /\ exists earlier,
       toasts s' = (earlier ++ [notice rid "Error"
                       "Failed to fetch question. Please try again."])%list.
Proof.
  intros Ht Hd Hp s'. subst s'. unfold fetchQuestion_at.
  rewrite (fetchQuestion_start_sends rid s Ht Hd).
  match goal with
  | |- context [fetchQuestion_resume rid p ?st] =>
      destruct (fetchQuestion_resume_failure rid p st Hp) as [e ->];
      set (waited := st)
  end.
  split; [| split; [reflexivity | now exists (toasts waited)]].
  simpl. subst waited.
  match goal with
  | |- question (advance_to t0 ?st) = _ =>
      destruct (advance_to_frame t0 st) as (_ & _ & -> & _)
  end.
  reflexivity.
Qed.

Lemma fetchQuestion_at_success (t0 : Z) (rid : string) (r : Response)
    (data : Js.value) (s : State) :
  topic s <> "" -> difficulty s <> "" ->
  ok r = true -> json r = Js.Normal data ->
  Js.truthy (Js.property data "id") = true ->
  Js.truthy (Js.property data "question_text") = true ->
  Js.isArray (Js.property data "options") = true ->
  let s' := fetchQuestion_at t0 rid (Resolved r) s in
  question s' = data
  /\ selectedAnswer s' = Js.Str ""
  /\ feedback s' = Js.Null
  /\ loading s' = false.
Proof.
  intros Ht Hd Hok Hjson Hid Htext Hopts s'. subst s'. unfold fetchQuestion_at.
  rewrite (fetchQuestion_start_sends rid s Ht Hd).
  rewrite (fetchQuestion_resume_success rid r data _ Hok Hjson Hid Htext Hopts).
  simpl. tauto.
Qed.

(** ** Reachable pages *)

(** [sound] looks at question, feedback, timers, toasts and clock only. *)
Lemma sound_same (s s' : State) :
  question s' = question s -> feedback s' = feedback s ->
  timers s' = timers s -> toasts s' = toasts s -> clock s' = clock s ->
  sound s -> sound s'.
Proof.
  unfold sound, well_shaped, timers_in_window, toasts_covered,
    only_error_notices.
  intros -> -> -> -> ->. trivial.
Qed.

Lemma sound_toast_error (rid : string) (description : option string)
    (s : State) :
  sound s -> sound (toast rid (Some "Error") description (Some Destructive) s).
Proof.
  intros (Hshape & Hwin & Hcov & Herr).
  unfold sound, well_shaped, timers_in_window, toasts_covered,
    only_error_notices in *. simpl.
  destruct Hshape as (Hq & Hf & Ht).
  repeat split; try assumption.
  - apply Forall_app. split; [exact Ht |].
    constructor; [| constructor]. simpl. discriminate.
  - apply Forall_app. split; [exact Hwin |].
    constructor; [| constructor]. simpl. lia.
  - apply Forall_app. split.
    + apply Forall_forall. intros entry Hin.
      rewrite Forall_forall in Hcov. destruct (Hcov entry Hin) as (x & Hx & Ha).
      exists x. split; [apply in_or_app; now left | exact Ha].
    + constructor; [| constructor]. simpl.
      eexists. split; [apply in_or_app; right; now left | reflexivity].
  - apply Forall_app. split; [exact Herr |].
    constructor; [| constructor]. now split.
Qed.

Lemma sound_handleError (rid : string) (e : Js.error) (message : string)
    (s : State) :
  sound s -> sound (handleError rid e message s).
Proof.
  intros H. unfold handleError. apply sound_toast_error.
  now apply (sound_same s).
Qed.

Lemma sound_new_question (data : Js.value) (s : State) :
  accepts_question data = true -> sound s ->
  sound (setLoading false
           (setFeedback Js.Null (setSelectedAnswer (Js.Str "") (setQuestion data s)))).
Proof.
  intros Hd (Hshape & Hwin & Hcov & Herr).
  destruct Hshape as (_ & _ & Ht).
  repeat split; try assumption; simpl; auto.
Qed.

Lemma sound_feedback_timer (data : Js.value) (s : State) :
  accepts_feedback data = true -> sound s ->
  sound (setTimeout (ShowFeedback data) 5000 s).
Proof.
  intros Hd (Hshape & Hwin & Hcov & Herr).
  unfold sound, well_shaped, timers_in_window, toasts_covered,
    only_error_notices in *. simpl.
  destruct Hshape as (Hq & Hf & Ht).
  repeat split; try assumption.
  - apply Forall_app. split; [exact Ht |].
    constructor; [| constructor]. simpl. intros data' H.
    injection H as <-. exact Hd.
  - apply Forall_app. split; [exact Hwin |].
    constructor; [| constructor]. simpl. lia.
  - apply Forall_forall. intros entry Hin.
    rewrite Forall_forall in Hcov. destruct (Hcov entry Hin) as (x & Hx & Ha).
    exists x. split; [apply in_or_app; now left | exact Ha].
Qed.

(** Timers only ever take toasts away. *)
Lemma toasts_advance_to (t : Z) (s : State) (entry : Toast) :
  In entry (toasts (advance_to t s)) -> In entry (toasts s).
Proof.
  rewrite advance_to_unfold.
  apply (run_all_keeps
           (fun st => In entry (toasts st) -> In entry (toasts s))
           (fun _ => True)).
  - intros x st _ IH. destruct (action x) as [rid | data]; simpl.
    + intros H. apply filter_In in H. now apply IH.
    + exact IH.
  - apply Forall_forall. trivial.
  - trivial.
Qed.

(** A removal that has fallen due has removed. *)
Lemma advance_to_removes (t : Z) (s : State) (x : timer) (rid : string) :
  In x (timers s) -> action x = RemoveToast rid -> due x <= t ->
  Forall (fun entry => id entry <> rid) (toasts (advance_to t s)).
Proof.
  intros Hin Hx Hdue. rewrite advance_to_unfold.
  apply (run_all_reaches
           (fun st => Forall (fun entry => id entry <> rid) (toasts st))
           (fun _ => True)
           (fun y st _ H => run_keeps_absent rid y st H) x).
  - rewrite Hx. apply run_RemoveToast_absent.
  - apply Forall_forall. trivial.
  - apply in_firing_order_iff, filter_In. split; [exact Hin |].
    now apply Z.leb_le.
Qed.

(** A feedback timer that has fallen due has cleared loading. *)
Lemma advance_to_clears_loading (t : Z) (s : State) (x : timer) :
  In x (timers s) -> is_feedback_timer x = true -> due x <= t ->
  loading (advance_to t s) = false.
Proof.
  intros Hin Hx Hdue. rewrite advance_to_unfold.
  apply (run_all_reaches (fun st => loading st = false) (fun _ => True)) with
    (x0 := x).
  - intros y st _ H. destruct (action y); simpl; [exact H | reflexivity].
  - intros st. unfold is_feedback_timer in Hx.
    destruct (action x); [discriminate | reflexivity].
  - apply Forall_forall. trivial.
  - apply in_firing_order_iff, filter_In. split; [exact Hin |].
    now apply Z.leb_le.
Qed.

(** Timers never set loading. *)
Lemma advance_to_keeps_idle (t : Z) (s : State) :
  loading s = false -> loading (advance_to t s) = false.
Proof.
  intros H. rewrite advance_to_unfold.
  apply (run_all_keeps (fun st => loading st = false) (fun _ => True)).
  - intros y st _ IH. destruct (action y); simpl; [exact IH | reflexivity].
  - apply Forall_forall. trivial.
  - exact H.
Qed.

Lemma feedback_advance_to (t : Z) (s : State) :
  well_shaped s ->
  feedback (advance_to t s) = Js.Null
  \/ accepts_feedback (feedback (advance_to t s)) = true.
Proof.
  intros (_ & Hf & Ht). rewrite advance_to_unfold.
  apply (run_all_keeps
           (fun st => feedback st = Js.Null
                      \/ accepts_feedback (feedback st) = true)
           (fun x => forall data, action x = ShowFeedback data ->
                                  accepts_feedback data = true)).
  - intros x st Hx IH. destruct (action x) as [rid | data]; simpl.
    + exact IH.
    + right. now apply Hx.
  - now apply Forall_in_firing_order, Forall_filter_weaken.
  - exact Hf.
Qed.

Lemma sound_advance_to (ms : Z) (s : State) :
  0 <= ms -> sound s -> sound (advance_to (clock s + ms) s).
Proof.
  intros Hms (Hshape & Hwin & Hcov & Herr).
  destruct (advance_to_frame (clock s + ms) s)
    as (_ & _ & Hq & _ & Hc & Ht & _ & _).
  unfold sound, well_shaped, timers_in_window, toasts_covered,
    only_error_notices.
  rewrite Hq, Hc, Ht.
  replace (Z.max (clock s) (clock s + ms)) with (clock s + ms) by lia.
  repeat split.
  - apply Hshape.
  - now apply feedback_advance_to.
  - apply Forall_filter_weaken. apply Hshape.
  - unfold timers_in_window in Hwin. rewrite Forall_forall in *.
    intros x Hx. apply filter_In in Hx. destruct Hx as [Hx Hdue].
    apply negb_true_iff, Z.leb_gt in Hdue. specialize (Hwin x Hx). lia.
  - unfold toasts_covered in Hcov. rewrite Forall_forall in *.
    intros entry Hin.
    destruct (Hcov entry (toasts_advance_to _ _ _ Hin)) as (x & Hx & Ha).
    exists x. split; [| exact Ha]. apply filter_In. split; [exact Hx |].
    apply negb_true_iff, Z.leb_gt.
    destruct (Z.le_gt_cases (due x) (clock s + ms)) as [Hdue | Hdue];
      [| lia].
    exfalso.
    pose proof (advance_to_removes _ s x (id entry) Hx Ha Hdue) as Habs.
    rewrite Forall_forall in Habs. now apply (Habs entry Hin).
  - unfold only_error_notices in Herr. rewrite Forall_forall in *.
    intros entry Hin. apply Herr. now apply toasts_advance_to in Hin.
Qed.

Lemma fetchQuestion_resume_cases (rid : string) (p : reply) (s : State) :
  (exists data,
      accepts_question data = true
      /\ fetchQuestion_resume rid p s =
           setLoading false
             (setFeedback Js.Null (setSelectedAnswer (Js.Str "") (setQuestion data s))))
  \/ (exists e,
        fetchQuestion_resume rid p s =
          setLoading false
            (handleError rid e "Failed to fetch question. Please try again."
               s)).
Proof.
  unfold fetchQuestion_resume, fetchQuestion_try.
  destruct p as [e | r]; simpl; [right; now exists e |].
  destruct (ok r); simpl; [| right; now eexists].
  destruct (json r) as [data | e]; simpl; [| right; now eexists].
  rewrite invalid_question_spec.
  destruct (Js.nullish data); simpl; [right; now eexists |].
  destruct (negb (Js.truthy (Js.property data "id"))
            || negb (Js.truthy (Js.property data "question_text"))
            || negb (Js.isArray (Js.property data "options"))) eqn:E;
    [right; now eexists |].
  left. exists data. split; [| reflexivity].
  apply orb_false_elim in E. destruct E as [E Ho].
  apply orb_false_elim in E. destruct E as [Hi Hq].
  apply negb_false_iff in Hi, Hq, Ho.
  unfold accepts_question. now rewrite Hi, Hq, Ho.
Qed.

Lemma submitAnswer_resume_cases (rid : string) (p : reply) (s : State) :
  (exists data,
      accepts_feedback data = true
      /\ submitAnswer_resume rid p s = setTimeout (ShowFeedback data) 5000 s)
  \/ (exists e, submitAnswer_resume rid p s = submitAnswer_catch rid e s).
Proof.
  unfold submitAnswer_resume, submitAnswer_try.
  destruct p as [e | r]; simpl; [right; now exists e |].
  destruct (ok r); simpl; [| right; now eexists].
  destruct (json r) as [data | e]; simpl; [| right; now eexists].
  rewrite invalid_feedback_spec.
  destruct (Js.nullish data); simpl; [right; now eexists |].
  destruct (negb (Js.is_boolean (Js.property data "is_correct"))
            || negb (Js.isArray (Js.property data "solution_steps"))) eqn:E;
    [right; now eexists |].
  left. exists data. split; [| reflexivity].
  apply orb_false_elim in E. destruct E as [Hc Hs].
  apply negb_false_iff in Hc, Hs.
  unfold accepts_feedback. now rewrite Hc, Hs.
Qed.

Lemma sound_resume (c : call) (rid : string) (p : reply) (s : State) :
  sound s -> sound (resume c rid p s).
Proof.
  intros H. destruct c; simpl.
  - destruct (fetchQuestion_resume_cases rid p s) as [(data & Hd & ->) | (e & ->)].
    + now apply sound_new_question.
    + eapply sound_same; [.. | apply sound_handleError; exact H]; reflexivity.
  - destruct (submitAnswer_resume_cases rid p s) as [(data & Hd & ->) | (e & ->)].
    + now apply sound_feedback_timer.
    + eapply sound_same; [.. | apply sound_handleError; exact H]; reflexivity.
Qed.

Lemma resume_selection (c : call) (rid : string) (p : reply) (s : State) :
  topic (resume c rid p s) = topic s
  /\ difficulty (resume c rid p s) = difficulty s.
Proof.
  destruct c; simpl.
  - apply fetchQuestion_resume_selection.
  - destruct (submitAnswer_resume_same_quiz rid p s) as (Ht & Hd & _).
    now split.
Qed.

(** After its reply a handler leaves loading false, or a feedback timer
    behind. *)
Lemma resume_loading (c : call) (rid : string) (p : reply) (s : State) :
  loading (resume c rid p s) = false
  \/ existsb is_feedback_timer (timers (resume c rid p s)) = true.
Proof.
  destruct c; unfold resume.
  - left.
    destruct (fetchQuestion_resume_cases rid p s) as [(data & _ & ->) | (e & ->)];
      reflexivity.
  - destruct (submitAnswer_resume_cases rid p s) as [(data & _ & ->) | (e & ->)].
    + right. simpl. rewrite existsb_app. simpl. now rewrite orb_true_r.
    + now left.
Qed.

Lemma listed_not_empty (v : string) (l : list (string * string)) :
  existsb (fun t => (fst t =? v)%string) l = true ->
  Forall (fun t => fst t <> "") l -> v <> "".
Proof.
  intros H Hall. apply existsb_exists in H. destruct H as (t & Hin & Ht).
  apply String.eqb_eq in Ht. subst v.
  rewrite Forall_forall in Hall. now apply Hall.
Qed.

Lemma topics_not_empty : Forall (fun t => fst t <> "") topics.
Proof. repeat constructor; discriminate. Qed.

Lemma difficulties_not_empty : Forall (fun t => fst t <> "") difficulties.
Proof. repeat constructor; discriminate. Qed.

(** A question on the page can be submitted for once an option is chosen. *)
Lemma shown_question_has_id (s : State) :
  well_shaped s -> Js.truthy (question s) = true ->
  Js.truthy (Js.get_optional (question s) "id") = true.
Proof.
  intros ([Hq | Hq] & _) Ht.
  - rewrite Hq in Ht. discriminate.
  - rewrite truthy_get_optional. unfold accepts_question in Hq.
    apply andb_prop in Hq. destruct Hq as [Hq _].
    apply andb_prop in Hq. now destruct Hq.
Qed.

(** Topic and difficulty are chosen wherever something is on the page. *)
Lemma chosen_when_busy (pg : Page) :
  idle_until_chosen pg ->
  question (now pg) <> Js.Null \/ feedback (now pg) <> Js.Null
  \/ suspended pg <> [] ->
  topic (now pg) <> "" /\ difficulty (now pg) <> "".
Proof.
  intros Hidle Hbusy.
  assert (H : ~ (topic (now pg) = "" \/ difficulty (now pg) = "")).
  { intros H. destruct (Hidle H) as (Hq & Hf & Hs & _).
    destruct Hbusy as [Hb | [Hb | Hb]]; contradiction. }
  split; intros E; apply H; [now left | now right].
Qed.

Lemma truthy_not_null (v : Js.value) : Js.truthy v = true -> v <> Js.Null.
Proof. intros H ->. discriminate. Qed.

(** A handler that starts with topic and difficulty chosen keeps the page
    sound, and is accounted for while it waits. *)
Lemma proceed_invariant (c : call) (s1 : State) (pg : Page) :
  invariant pg ->
  topic (now pg) <> "" -> difficulty (now pg) <> "" ->
  question s1 = question (now pg) -> feedback s1 = feedback (now pg) ->
  timers s1 = timers (now pg) -> toasts s1 = toasts (now pg) ->
  clock s1 = clock (now pg) ->
  topic s1 = topic (now pg) -> difficulty s1 = difficulty (now pg) ->
  invariant (proceed c (Awaiting s1) pg).
Proof.
  intros (Hsound & Hload & Hidle) Ht Hd Eq Ef Et Eto Ec Etopic Ediff.
  split; [| split]; simpl.
  - now apply (sound_same (now pg)).
  - intros _. left. destruct (suspended pg); discriminate.
  - intros H. simpl in H. rewrite Etopic, Ediff in H. tauto.
Qed.

Lemma respond_invariant (i : input) (pg pg' : Page) :
  invariant pg -> respond i pg = Some pg' -> invariant pg'.
Proof.
  intros Hinv. pose proof Hinv as (Hsound & Hload & Hidle).
  destruct i; cbv beta iota zeta delta [respond].
  - (* ChooseTopic *)
    destruct (existsb _ topics) eqn:E; [| discriminate].
    intros H. injection H as <-.
    pose proof (listed_not_empty v topics E topics_not_empty) as Hv.
    split; [| split]; simpl.
    + now apply (sound_same (now pg)).
    + exact Hload.
    + intros [H | H]; [contradiction |]. apply Hidle. now right.
  - (* ChooseDifficulty *)
    destruct (existsb _ difficulties) eqn:E; [| discriminate].
    intros H. injection H as <-.
    pose proof (listed_not_empty v difficulties E difficulties_not_empty)
      as Hv.
    split; [| split]; simpl.
    + now apply (sound_same (now pg)).
    + exact Hload.
    + intros [H | H]; [| contradiction]. apply Hidle. now left.
  - (* ChooseOption *)
    destruct (Js.truthy (question (now pg))); [| discriminate].
    destruct (nth_error _ index) as [text |]; [| discriminate].
    intros H. injection H as <-.
    split; [| split]; simpl.
    + now apply (sound_same (now pg)).
    + exact Hload.
    + exact Hidle.
  - (* PressGetQuestion *)
    destruct (_ || _) eqn:E; [discriminate |].
    intros H. injection H as <-.
    apply orb_false_elim in E. destruct E as [E _].
    apply orb_false_elim in E. destruct E as [Et Ed].
    apply negb_false_iff, truthy_string_true in Et, Ed.
    rewrite (fetchQuestion_start_sends rid (now pg) Et Ed).
    now apply proceed_invariant.
  - (* PressSubmitAnswer *)
    destruct (_ && _) eqn:E; [| discriminate].
    intros H. injection H as <-.
    apply andb_prop in E. destruct E as [Eq E].
    apply negb_true_iff, orb_false_elim in E. destruct E as [Ea _].
    apply negb_false_iff in Ea.
    destruct (chosen_when_busy pg Hidle
                (or_introl (truthy_not_null _ Eq))) as [Et Ed].
    assert (Hs : may_submit (now pg)).
    { split; [| exact Ea]. apply shown_question_has_id; [apply Hsound | exact Eq]. }
    rewrite (submitAnswer_start_sends rid (now pg) Hs).
    now apply proceed_invariant.
  - (* PressTryAnother *)
    destruct (Js.truthy (feedback (now pg))) eqn:E; [| discriminate].
    intros H. injection H as <-.
    destruct (chosen_when_busy pg Hidle
                (or_intror (or_introl (truthy_not_null _ E)))) as [Et Ed].
    rewrite (fetchQuestion_start_sends rid (now pg) Et Ed).
    now apply proceed_invariant.
  - (* Settle *)
    destruct (nth_error (suspended pg) n) as [c |] eqn:E; [| discriminate].
    intros H. injection H as <-.
    assert (Hbusy : suspended pg <> []).
    { intros Hnil. rewrite Hnil in E. destruct n; discriminate. }
    destruct (chosen_when_busy pg Hidle (or_intror (or_intror Hbusy)))
      as [Et Ed].
    destruct (resume_selection c rid p (now pg)) as [Etopic Ediff].
    split; [| split];
      unfold loading_accounted, idle_until_chosen; cbn [now suspended].
    + now apply sound_resume.
    + intros Hl. right.
      destruct (resume_loading c rid p (now pg)) as [H | H];
        [congruence | exact H].
    + rewrite Etopic, Ediff. tauto.
  - (* Elapse *)
    destruct (0 <=? ms) eqn:E; [| discriminate].
    intros H. injection H as <-. apply Z.leb_le in E.
    set (t := clock (now pg) + ms).
    destruct (advance_to_frame t (now pg))
      as (Etopic & Ediff & Eq & _ & _ & Etimers & _ & _).
    split; [| split];
      unfold loading_accounted, idle_until_chosen; cbn [now suspended].
    + now apply sound_advance_to.
    + intros Hl.
      destruct (loading (now pg)) eqn:El;
        [| rewrite (advance_to_keeps_idle t _ El) in Hl; discriminate].
      destruct (Hload El) as [H | H]; [now left | right].
      apply existsb_exists in H. destruct H as (x & Hx & Hfb).
      apply existsb_exists. exists x. split; [| exact Hfb].
      rewrite Etimers. apply filter_In. split; [exact Hx |].
      apply negb_true_iff, Z.leb_gt.
      destruct (Z.le_gt_cases (due x) t) as [Hdue | Hdue]; [| lia].
      rewrite (advance_to_clears_loading t _ x Hx Hfb Hdue) in Hl.
      discriminate.
    + rewrite Etopic, Ediff, Eq, Etimers. intros H.
      destruct (Hidle H) as (Hq & Hf & Hs & Ht & Hto).
      rewrite Ht. cbn [filter]. repeat split; try assumption.
      * assert (Hquiet : Forall (fun x => is_feedback_timer x = false)
                           (timers (now pg))) by (rewrite Ht; constructor).
        destruct (advance_to_quiet t _ Hquiet) as [-> _]. exact Hf.
      * destruct (toasts (advance_to t (now pg))) as [| entry l] eqn:El;
          [reflexivity |].
        assert (Hin : In entry (toasts (advance_to t (now pg))))
          by (rewrite El; now left).
        apply toasts_advance_to in Hin. rewrite Hto in Hin. destruct Hin.
Qed.

Lemma invariant_opened : invariant opened.
Proof.
  repeat split; simpl; try constructor; try discriminate; auto.
Qed.

Lemma play_invariant (inputs : list input) (pg pg' : Page) :
  invariant pg -> play inputs pg = Some pg' -> invariant pg'.
Proof.
  revert pg. induction inputs as [| i rest IH]; intros pg Hinv; simpl.
  - intros H. now injection H as <-.
  - destruct (respond i pg) as [pg1 |] eqn:E; [| discriminate].
    apply IH. now apply (respond_invariant i pg).
Qed.

Lemma reachable_invariant (inputs : list input) (pg : Page) :
  play inputs opened = Some pg -> invariant pg.
Proof. apply play_invariant, invariant_opened. Qed.

(** On a page that can be reached no timer is due later than 5000 ms after
    a reply that is still to come. *)
Lemma reachable_feedback_due_by (inputs : list input) (pg : Page) (t0 : Z) :
  play inputs opened = Some pg -> clock (now pg) <= t0 ->
  feedback_due_by (t0 + 5000) (now pg).
Proof.
  intros H Ht. destruct (reachable_invariant inputs pg H) as ((_ & Hwin & _) & _).
  now apply timers_in_window_due_by.
Qed.

(** On a sound page every toast is gone once 5000 ms have passed. *)
Lemma invariant_toasts_expire (pg : Page) (t : Z) :
  invariant pg ->
  clock (now pg) + 5000 <= t ->
  toasts (advance_to t (now pg)) = [].
Proof.
  intros ((_ & Hwin & Hcov & _) & _) Ht.
  destruct (toasts (advance_to t (now pg))) as [| entry l] eqn:E;
    [reflexivity | exfalso].
  assert (Hin : In entry (toasts (advance_to t (now pg))))
    by (rewrite E; now left).
  pose proof (toasts_advance_to _ _ _ Hin) as Hin0.
  unfold toasts_covered in Hcov. rewrite Forall_forall in Hcov.
  destruct (Hcov entry Hin0) as (x & Hx & Ha).
  unfold timers_in_window in Hwin. rewrite Forall_forall in Hwin.
  specialize (Hwin x Hx).
  assert (Hdue : due x <= t) by lia.
  pose proof (advance_to_removes t _ x (id entry) Hx Ha Hdue) as Habs.
  rewrite Forall_forall in Habs. now apply (Habs entry Hin).
Qed.

(** On a sound page with no handler suspended loading is false once 5000 ms
    have passed. *)
Lemma invariant_releases_loading (pg : Page) (t : Z) :
  invariant pg ->
  suspended pg = [] ->
  clock (now pg) + 5000 <= t ->
  loading (advance_to t (now pg)) = false.
Proof.
  intros ((_ & Hwin & _) & Hload & _) Hs Ht.
  destruct (loading (now pg)) eqn:El; [| now apply advance_to_keeps_idle].
  destruct (Hload El) as [Hbusy | Hfb]; [contradiction |].
  apply existsb_exists in Hfb. destruct Hfb as (x & Hx & Hfb).
  unfold timers_in_window in Hwin. rewrite Forall_forall in Hwin.
  specialize (Hwin x Hx).
  apply (advance_to_clears_loading t _ x Hx Hfb). lia.
Qed.

(** On a sound page a press that runs [fetchQuestion] passes the guard. *)
Lemma press_fetch_invariant (pg pg' : Page) (rid : string) :
  invariant pg ->
  respond (PressGetQuestion rid) pg = Some pg'
  \/ respond (PressTryAnother rid) pg = Some pg' ->
  suspended pg' = (suspended pg ++ [FetchQuestion])%list
  /\ requests (now pg')
     = (requests (now pg)
        ++ [{| url := Questions;
               body := Js.Obj [("topic", Js.Str (topic (now pg)));
                               ("difficulty",
                                Js.Str (difficulty (now pg)))] |}])%list
  /\ loading (now pg') = true
  /\ toasts (now pg') = toasts (now pg).
Proof.
  intros (Hsound & Hload & Hidle) Hpress.
  assert (Hchosen : topic (now pg) <> "" /\ difficulty (now pg) <> ""
                    /\ pg' = proceed FetchQuestion
                               (fetchQuestion_start rid (now pg)) pg).
  { destruct Hpress as [Hp | Hp]; cbv beta iota zeta delta [respond] in Hp.
    - destruct (_ || _) eqn:E in Hp; [discriminate |].
      injection Hp as <-.
      apply orb_false_elim in E. destruct E as [E _].
      apply orb_false_elim in E. destruct E as [Et Ed].
      apply negb_false_iff, truthy_string_true in Et, Ed. auto.
    - destruct (Js.truthy (feedback (now pg))) eqn:E; [| discriminate].
      injection Hp as <-.
      destruct (chosen_when_busy pg Hidle
                  (or_intror (or_introl (truthy_not_null _ E)))). auto. }
  destruct Hchosen as (Et & Ed & ->).
  rewrite (fetchQuestion_start_sends rid (now pg) Et Ed).
  repeat split.
Qed.

(** On a sound page a press of "Submit Answer" passes the guard. *)
Lemma press_submit_invariant (pg pg' : Page) (rid : string) :
  invariant pg ->
  respond (PressSubmitAnswer rid) pg = Some pg' ->
  suspended pg' = (suspended pg ++ [SubmitAnswer])%list
  /\ requests (now pg')
     = (requests (now pg)
        ++ [{| url := Submit;
               body := Js.Obj [("question_id",
                                Js.property (question (now pg)) "id");
                               ("selected_answer",
                                selectedAnswer (now pg))] |}])%list
  /\ loading (now pg') = true
  /\ toasts (now pg') = toasts (now pg).
Proof.
  intros (Hsound & Hload & Hidle) Hp.
  cbv beta iota zeta delta [respond] in Hp.
  destruct (_ && _) eqn:E in Hp; [| discriminate].
  injection Hp as <-.
  apply andb_prop in E. destruct E as [Eq E].
  apply negb_true_iff, orb_false_elim in E. destruct E as [Ea _].
  apply negb_false_iff in Ea.
  assert (Hs : may_submit (now pg)).
  { split; [| exact Ea].
    apply shown_question_has_id; [apply Hsound | exact Eq]. }
  rewrite (submitAnswer_start_sends rid (now pg) Hs).
  repeat split.
Qed.

(** X1. Whatever happens on the page, in whatever order clicks, replies and
    timers come, the question is [null] or a payload with a truthy [id], a
    truthy [question_text] and an array [options], and the feedback is [null]
    or a payload with a boolean [is_correct] and an array [solution_steps]. *)
Theorem page_keeps_payloads_checked (inputs : list input) (pg : Page) :
  play inputs opened = Some pg ->
  (question (now pg) = Js.Null
   \/ (Js.truthy (Js.property (question (now pg)) "id") = true
       /\ Js.truthy (Js.property (question (now pg)) "question_text") = true
       /\ Js.isArray (Js.property (question (now pg)) "options") = true))
  /\ (feedback (now pg) = Js.Null
      \/ (Js.is_boolean (Js.property (feedback (now pg)) "is_correct") = true
          /\ Js.isArray (Js.property (feedback (now pg)) "solution_steps")
             = true)).
Proof.
  intros H. destruct (reachable_invariant inputs pg H) as (Hsound & _).
  destruct Hsound as ((Hq & Hf & _) & _). split.
  - destruct Hq as [Hq | Hq]; [now left | right].
    unfold accepts_question in Hq.
    apply andb_prop in Hq. destruct Hq as [Hq Ho].
    apply andb_prop in Hq. destruct Hq as [Hi Hq]. auto.
  - destruct Hf as [Hf | Hf]; [now left | right].
    unfold accepts_feedback in Hf. now apply andb_prop in Hf.
Qed.

Lemma page_keeps_payloads_checked_witness :
  play (visit_graded ++ [Elapse 5000]) opened
  = Some (after (visit_graded ++ [Elapse 5000]))
  /\ feedback (now (after (visit_graded ++ [Elapse 5000]))) = sample_feedback
  /\ (feedback (now (after (visit_graded ++ [Elapse 5000]))) = Js.Null
      \/ (Js.is_boolean
            (Js.property (feedback (now (after (visit_graded ++ [Elapse 5000]))))
               "is_correct") = true
          /\ Js.isArray
               (Js.property
                  (feedback (now (after (visit_graded ++ [Elapse 5000]))))
                  "solution_steps") = true)).
Proof.
  assert (H : play (visit_graded ++ [Elapse 5000]) opened
              = Some (after (visit_graded ++ [Elapse 5000])))
    by (vm_compute; reflexivity).
  split; [exact H |]. split; [vm_compute; reflexivity |].
  exact (proj2 (page_keeps_payloads_checked _ _ H)).
Defined.

(** X2. Whatever has happened on the page, no toast outlives five seconds:
    once the clock is 5000 ms further, with nothing but timers running, the
    toast list is empty. *)
Theorem page_toasts_expire (inputs : list input) (pg : Page) (t : Z) :
  play inputs opened = Some pg ->
  clock (now pg) + 5000 <= t ->
  toasts (advance_to t (now pg)) = [].
Proof.
  intros H. apply invariant_toasts_expire.
  now apply (reachable_invariant inputs).
Qed.

Lemma page_toasts_expire_witness :
  play visit_failed opened = Some (after visit_failed)
  /\ clock (now (after visit_failed)) + 5000 <= 5400
  /\ toasts (now (after visit_failed))
     = [notice "t1" "Error" "Failed to submit answer. Please try again."]
  /\ toasts (advance_to 5400 (now (after visit_failed))) = [].
Proof.
  assert (H : play visit_failed opened = Some (after visit_failed))
    by (vm_compute; reflexivity).
  assert (Ht : clock (now (after visit_failed)) + 5000 <= 5400)
    by (vm_compute; discriminate).
  split; [exact H |]. split; [exact Ht |]. split; [vm_compute; reflexivity |].
  exact (page_toasts_expire _ _ 5400 H Ht).
Defined.

(** X3. Whatever has happened on the page, once no handler is waiting for a
    reply loading does not stay true: when the clock is 5000 ms further,
    with nothing but timers running, loading is false. *)
Theorem page_releases_loading (inputs : list input) (pg : Page) (t : Z) :
  play inputs opened = Some pg ->
  suspended pg = [] ->
  clock (now pg) + 5000 <= t ->
  loading (advance_to t (now pg)) = false.
Proof.
  intros H. apply invariant_releases_loading.
  now apply (reachable_invariant inputs).
Qed.

Lemma page_releases_loading_witness :
  play visit_graded opened = Some (after visit_graded)
  /\ suspended (after visit_graded) = []
  /\ clock (now (after visit_graded)) + 5000 <= 5400
  /\ loading (now (after visit_graded)) = true
  /\ loading (advance_to 5400 (now (after visit_graded))) = false.
Proof.
  assert (H : play visit_graded opened = Some (after visit_graded))
    by (vm_compute; reflexivity).
  assert (Hs : suspended (after visit_graded) = []) by reflexivity.
  assert (Ht : clock (now (after visit_graded)) + 5000 <= 5400)
    by (vm_compute; discriminate).
  split; [exact H |]. split; [exact Hs |]. split; [exact Ht |].
  split; [vm_compute; reflexivity |].
  exact (page_releases_loading _ _ 5400 H Hs Ht).
Defined.

(** X4. On a page that can be reached the guards of the two handlers never
    fire: every press the page accepts gets its handler as far as the
    [fetch], the request goes out and no notice is raised.  So every toast
    ever on the page is an "Error" notice of [handleError]; "Invalid Input"
    and "Invalid Submission" are never shown. *)
Theorem page_presses_reach_fetch (inputs : list input) (pg : Page) :
  play inputs opened = Some pg ->
  (forall rid pg',
      respond (PressGetQuestion rid) pg = Some pg'
      \/ respond (PressTryAnother rid) pg = Some pg' ->
      suspended pg' = (suspended pg ++ [FetchQuestion])%list
      /\ requests (now pg')
         = (requests (now pg)
            ++ [{| url := Questions;
                   body := Js.Obj [("topic", Js.Str (topic (now pg)));
                                   ("difficulty",
                                    Js.Str (difficulty (now pg)))] |}])%list
      /\ loading (now pg') = true
      /\ toasts (now pg') = toasts (now pg))
  /\ (forall rid pg',
        respond (PressSubmitAnswer rid) pg = Some pg' ->
        suspended pg' = (suspended pg ++ [SubmitAnswer])%list
        /\ requests (now pg')
           = (requests (now pg)
              ++ [{| url := Submit;
                     body := Js.Obj [("question_id",
                                      Js.property (question (now pg)) "id");
                                     ("selected_answer",
                                      selectedAnswer (now pg))] |}])%list
        /\ loading (now pg') = true
        /\ toasts (now pg') = toasts (now pg))
  /\ Forall (fun entry => title entry = Some "Error"
                          /\ variant entry = Destructive) (toasts (now pg)).
Proof.
  intros H. pose proof (reachable_invariant inputs pg H) as Hinv.
  split; [| split].
  - intros rid pg'. now apply press_fetch_invariant.
  - intros rid pg'. now apply press_submit_invariant.
  - apply Hinv.
Qed.

Lemma page_presses_reach_fetch_witness :
  play visit_failed opened = Some (after visit_failed)
  /\ respond (PressSubmitAnswer "t2") (after visit_failed)
     = Some (after (visit_failed ++ [PressSubmitAnswer "t2"]))
  /\ suspended (after (visit_failed ++ [PressSubmitAnswer "t2"]))
     = [SubmitAnswer]
  /\ Forall (fun entry => title entry = Some "Error"
                          /\ variant entry = Destructive)
       (toasts (now (after visit_failed))).
Proof.
  assert (H : play visit_failed opened = Some (after visit_failed))
    by (vm_compute; reflexivity).
  assert (Hp : respond (PressSubmitAnswer "t2") (after visit_failed)
               = Some (after (visit_failed ++ [PressSubmitAnswer "t2"])))
    by (vm_compute; reflexivity).
  destruct (page_presses_reach_fetch _ _ H) as (_ & Hsubmit & Herr).
  split; [exact H |]. split; [exact Hp |]. split; [| exact Herr].
  exact (proj1 (Hsubmit _ _ Hp)).
Defined.

(** ** What the handlers send *)

Lemma fetchQuestion_resume_requests (rid : string) (p : reply) (s : State) :
  requests (fetchQuestion_resume rid p s) = requests s.
Proof.
  destruct (fetchQuestion_resume_cases rid p s) as [(data & _ & ->) | (e & ->)];
    reflexivity.
Qed.

Lemma submitAnswer_resume_requests (rid : string) (p : reply) (s : State) :
  requests (submitAnswer_resume rid p s) = requests s.
Proof.
  destruct (submitAnswer_resume_cases rid p s) as [(data & _ & ->) | (e & ->)];
    reflexivity.
Qed.

(** X5. An invocation that passes its guard sends one request, whatever the
    reply: [fetchQuestion] posts the topic and the difficulty to the
    questions endpoint, [submitAnswer] posts the [id] of the question and the
    selected answer to the submit endpoint. *)
Theorem handlers_send_one_request (rid : string) (p : reply) (s : State) :
  (topic s <> "" -> difficulty s <> "" ->
   requests (fetchQuestion rid p s)
   = (requests s
      ++ [{| url := Questions;
             body := Js.Obj [("topic", Js.Str (topic s));
                             ("difficulty", Js.Str (difficulty s))] |}])%list)
  /\ (may_submit s ->
      requests (submitAnswer rid p s)
      = (requests s
         ++ [{| url := Submit;
                body := Js.Obj [("question_id",
                                 Js.property (question s) "id");
                                ("selected_answer",
                                 selectedAnswer s)] |}])%list).
Proof.
  split.
  - intros Ht Hd. unfold fetchQuestion.
    rewrite (fetchQuestion_start_sends rid s Ht Hd).
    now rewrite fetchQuestion_resume_requests.
  - intros Hs. unfold submitAnswer.
    rewrite (submitAnswer_start_sends rid s Hs).
    now rewrite submitAnswer_resume_requests.
Qed.

Lemma handlers_send_one_request_witness :
  may_submit answering
  /\ requests (submitAnswer "t1" (Resolved error_500) answering)
     = (requests answering
        ++ [{| url := Submit;
               body := Js.Obj [("question_id", Js.Num 1);
                               ("selected_answer", Js.Str "4")] |}])%list.
Proof.
  assert (Hs : may_submit answering) by (split; reflexivity).
  split; [exact Hs |].
  exact (proj2 (handlers_send_one_request "t1" (Resolved error_500) answering)
           Hs).
Defined.

(** X6. Inside the [try] of [submitAnswer] the read of [question.id] cannot
    throw: before its [fetch] the handler either returns at the guard with
    the "Invalid Submission" notice or is suspended with loading true; it
    never gets to [catch], so it logs nothing there. *)
Theorem submitAnswer_start_never_throws (rid : string) (s : State) :
  (submitAnswer_start rid s
   = Returned (toast rid (Some "Invalid Submission")
                 (Some "Please select an answer before submitting")
                 (Some Destructive) s)
   \/ exists s', submitAnswer_start rid s = Awaiting s'
                 /\ loading s' = true /\ toasts s' = toasts s)
  /\ forall s', (submitAnswer_start rid s = Returned s'
                 \/ submitAnswer_start rid s = Awaiting s') ->
                console s' = console s.
Proof.
  unfold submitAnswer_start.
  destruct (negb (Js.truthy (Js.get_optional (question s) "id"))
            || negb (Js.truthy (selectedAnswer s))) eqn:E.
  - split; [now left |].
    intros s' [H | H]; [injection H as <-; reflexivity | discriminate].
  - apply orb_false_elim in E. destruct E as [E _].
    apply negb_false_iff in E.
    destruct (get_optional_truthy _ _ E) as [Hn _].
    rewrite (get_not_nullish _ _ Hn). split.
    + right. eexists. repeat split.
    + intros s' [H | H]; [discriminate | injection H as <-; reflexivity].
Qed.

(** ** A feedback timer outlives its question *)

(** X7. [fetchQuestion] cancels no timer.  Where the timer of a submission
    is pending and a new question is fetched with success, loading is false
    at once, and when the timer falls due the feedback of the earlier
    question is shown beside the new question. *)
Theorem feedback_timer_outlives_question (rid : string) (r : Response)
    (data fb : Js.value) (x : timer) (t : Z) (s : State) :
  topic s <> "" -> difficulty s <> "" ->
  ok r = true -> json r = Js.Normal data ->
  accepts_question data = true ->
  In x (timers s) -> action x = ShowFeedback fb ->
  Forall (fun y => is_feedback_timer y = false \/ y = x) (timers s) ->
  due x <= t ->
  let s' := fetchQuestion rid (Resolved r) s in
  timers s' = timers s
  /\ loading s' = false
  /\ feedback s' = Js.Null
  /\ question (advance_to t s') = data
  /\ feedback (advance_to t s') = fb.
Proof.
  intros Ht Hd Hok Hjson Hacc Hin Hx Hall Hdue s'. subst s'.
  unfold accepts_question in Hacc.
  apply andb_prop in Hacc. destruct Hacc as [Hacc Ho].
  apply andb_prop in Hacc. destruct Hacc as [Hi Hq].
  unfold fetchQuestion. rewrite (fetchQuestion_start_sends rid s Ht Hd).
  rewrite (fetchQuestion_resume_success rid r data _ Hok Hjson Hi Hq Ho).
  set (s' := setLoading false _).
  assert (Et : timers s' = timers s) by reflexivity.
  do 3 (split; [reflexivity |]).
  destruct (advance_to_frame t s') as (_ & _ & -> & _).
  split; [reflexivity |].
  apply (advance_to_shows t s' x fb); rewrite ?Et; assumption.
Qed.

(** ** The screen *)

Lemma existsb_negb {A : Type} (f : A -> bool) (l : list A) :
  existsb (fun x => negb (f x)) l = negb (forallb f l).
Proof.
  induction l as [| x l IH]; simpl; [reflexivity |].
  rewrite IH. now destruct (f x).
Qed.

Lemma option_rows_spec (items : list Js.value) (index : nat) :
  (existsb Js.nullish items = true ->
   map_from option_row index items = Js.Throw Js.TypeError)
  /\ (existsb Js.nullish items = false ->
      exists rows,
        map_from option_row index items = Js.Normal rows
        /\ flat_map pressable (map expand rows) = []
        /\ flat_map values (map expand rows)
           = map (fun option => Js.property option "text") items
        /\ (forall f, flat_map (choices f) (map expand rows) = [])
        /\ forallb mountable (map expand rows)
           = forallb renderable
               (map (fun option => Js.property option "text") items)).
Proof.
  revert index. induction items as [| option items IH]; intros index.
  - split; [discriminate |]. intros _. exists []. repeat split.
  - destruct (IH (S index)) as [IHt IHf]. simpl.
    unfold option_row at 1 3, Js.get.
    destruct (Js.nullish option); simpl.
    + split; [reflexivity | discriminate].
    + split.
      * intros H. now rewrite (IHt H).
      * intros H. destruct (IHf H) as (rows & -> & Hp & Hv & Hc & Hm).
        eexists. split; [reflexivity |]. simpl.
        rewrite Hp, Hv, Hm. split; [reflexivity |]. split; [reflexivity |].
        split.
        -- intros f. rewrite (Hc f). now destruct f.
        -- now rewrite !andb_true_r.
Qed.

Lemma step_items_spec (items : list Js.value) (index : nat) :
  exists steps,
    map_from step_item index items = Js.Normal steps
    /\ flat_map pressable (map expand steps) = []
    /\ (forall f, flat_map (choices f) (map expand steps) = [])
    /\ forallb mountable (map expand steps) = forallb renderable items.
Proof.
  revert index. induction items as [| step items IH]; intros index.
  - exists []. repeat split.
  - destruct (IH (S index)) as (steps & E & Hp & Hc & Hm). simpl. rewrite E.
    eexists. split; [reflexivity |]. simpl. rewrite Hp, Hm.
    split; [reflexivity |]. split.
    + intros f. rewrite (Hc f). now destruct f.
    + now rewrite andb_true_r.
Qed.

(** The label of a button offers nothing. *)
Lemma label_spec (busy : bool) (label : string) :
  pressable (expand (if busy then spinner else Text label)) = []
  /\ (forall f, choices f (expand (if busy then spinner else Text label)) = [])
  /\ mountable (expand (if busy then spinner else Text label)) = true.
Proof.
  destruct busy; split; try reflexivity; split; try reflexivity;
    intros f; now destruct f.
Qed.

Ltac settle_mountable :=
  rewrite ?andb_true_r;
  repeat match goal with
         | |- context [renderable ?x] => destruct (renderable x)
         | |- context [forallb ?f ?l] => destruct (forallb f l)
         end;
  reflexivity.

Lemma render_spec (s : State) :
  match render s with
  | Js.Normal tree =>
      pressable (expand tree)
      = ((if can_get_question s then [FetchQuestion] else [])
         ++ (if can_submit s then [SubmitAnswer] else [])
         ++ (if Js.truthy (feedback s) then [FetchQuestion] else []))%list
      /\ choices SetTopic (expand tree) = map (fun t => Js.Str (fst t)) topics
      /\ choices SetDifficulty (expand tree)
         = map (fun d => Js.Str (fst d)) difficulties
      /\ choices SetSelectedAnswer (expand tree)
         = (if Js.truthy (question s) then option_texts (question s) else [])
      /\ (Js.truthy (question s) = true ->
          Js.isArray (Js.property (question s) "options") = true
          /\ has_null_option (question s) = false)
      /\ (Js.truthy (feedback s) = true ->
          Js.isArray (Js.property (feedback s) "solution_steps") = true)
      /\ mountable (expand tree) = negb (shows_object s)
  | Js.Throw _ =>
      (Js.truthy (question s) = true
       /\ (Js.isArray (Js.property (question s) "options") = false
           \/ has_null_option (question s) = true))
      \/ (Js.truthy (feedback s) = true
          /\ Js.isArray (Js.property (feedback s) "solution_steps") = false)
  end.
Proof.
  unfold render, question_card, feedback_card, can_get_question,
    can_submit, has_null_option, shows_object, option_texts, map_value.
  destruct (Js.truthy (question s)) eqn:Eq.
  - destruct (Js.property (question s) "options") as [| | | | | items |] eqn:Eo;
      simpl; try (left; split; [reflexivity | now left]).
    destruct (option_rows_spec items 0) as [Ht Hf].
    destruct (existsb Js.nullish items) eqn:En.
    + rewrite (Ht eq_refl). simpl. left. split; [reflexivity | now right].
    + destruct (Hf eq_refl) as (rows & -> & Hp & Hv & Hc & Hm). simpl.
      destruct (Js.truthy (feedback s)) eqn:Ef.
      * destruct (Js.property (feedback s) "solution_steps")
          as [| | | | | steps |] eqn:Es;
          simpl; try (right; split; reflexivity).
        destruct (step_items_spec steps 0) as (lis & -> & Hp' & Hc' & Hm').
        simpl. rewrite Hp, Hp', Hv, !Hc, !Hc', Hm, Hm'. simpl.
        rewrite !(proj1 (label_spec _ _)), !(proj1 (proj2 (label_spec _ _))),
          !(proj2 (proj2 (label_spec _ _))).
        simpl. rewrite ?app_nil_r, !existsb_negb.
        destruct (negb (Js.truthy_string (topic s))
                  || negb (Js.truthy_string (difficulty s)) || loading s);
          destruct (negb (Js.truthy (selectedAnswer s)) || loading s);
          simpl; repeat split; auto; settle_mountable.
      * simpl. rewrite Hp, Hv, !Hc, Hm. simpl.
        rewrite !(proj1 (label_spec _ _)), !(proj1 (proj2 (label_spec _ _))),
          !(proj2 (proj2 (label_spec _ _))).
        simpl. rewrite ?app_nil_r, !existsb_negb.
        assert (Hfalsy : renderable (feedback s) = true)
          by (destruct (feedback s); try reflexivity; discriminate Ef).
        rewrite Hfalsy.
        destruct (negb (Js.truthy_string (topic s))
                  || negb (Js.truthy_string (difficulty s)) || loading s);
          destruct (negb (Js.truthy (selectedAnswer s)) || loading s);
          simpl; repeat split; auto; try discriminate; settle_mountable.
  - simpl.
    assert (Hfalsy : renderable (question s) = true)
      by (destruct (question s); try reflexivity; discriminate Eq).
    destruct (Js.truthy (feedback s)) eqn:Ef.
    + destruct (Js.property (feedback s) "solution_steps")
        as [| | | | | steps |] eqn:Es;
        simpl; try (right; split; reflexivity).
      destruct (step_items_spec steps 0) as (lis & -> & Hp' & Hc' & Hm').
      simpl. rewrite Hp', !Hc', Hm', Hfalsy. simpl.
      rewrite !(proj1 (label_spec _ _)), !(proj1 (proj2 (label_spec _ _))),
        !(proj2 (proj2 (label_spec _ _))).
      simpl. rewrite ?existsb_negb.
      destruct (negb (Js.truthy_string (topic s))
                || negb (Js.truthy_string (difficulty s)) || loading s);
        simpl; repeat split; auto; try discriminate; settle_mountable.
    + simpl.
      assert (Hfalsy' : renderable (feedback s) = true)
        by (destruct (feedback s); try reflexivity; discriminate Ef).
      rewrite Hfalsy, Hfalsy'.
      rewrite !(proj1 (label_spec _ _)), !(proj1 (proj2 (label_spec _ _))),
        !(proj2 (proj2 (label_spec _ _))).
      simpl.
      destruct (negb (Js.truthy_string (topic s))
                || negb (Js.truthy_string (difficulty s)) || loading s);
        simpl; repeat split; auto; discriminate.
Qed.

Lemma screen_Some (s : State) (dom : node) :
  screen s = Some dom ->
  exists tree, render s = Js.Normal tree /\ dom = expand tree.
Proof.
  unfold screen. destruct (render s) as [tree | e]; [| discriminate].
  destruct (mountable (expand tree)); [| discriminate].
  intros H. injection H as <-. now exists tree.
Qed.

Lemma listed_In (v : string) (l : list (string * string)) :
  existsb (fun t => (fst t =? v)%string) l = true
  <-> In (Js.Str v) (map (fun t => Js.Str (fst t)) l).
Proof.
  rewrite existsb_exists, in_map_iff. split.
  - intros (t & Hin & Ht). apply String.eqb_eq in Ht. exists t.
    split; [now rewrite Ht | exact Hin].
  - intros (t & Ht & Hin). injection Ht as Ht. exists t.
    split; [exact Hin | now apply String.eqb_eq].
Qed.

Lemma accepted_iff {A : Type} (c : bool) (a : A) :
  (exists pg', (if c then Some a else None) = Some pg') <-> c = true.
Proof.
  destruct c; split; try reflexivity.
  - intros _. now exists a.
  - intros (pg' & H). discriminate.
  - discriminate.
Qed.

(** X9. The page model accepts an input exactly when the screen offers it.
    Wherever the page is shown, a press of "Submit Answer" is accepted iff
    an enabled button with [onClick={submitAnswer}] is on the screen; a
    press that runs [fetchQuestion] ("Get Question" or "Try Another
    Question") iff an enabled button with [onClick={fetchQuestion}] is; a
    value can be chosen for topic or difficulty iff it is the [value] of an
    item inside the select that calls the setter; and the option number
    [index] can be picked iff the radio group has an item number [index],
    whose [value], a string or not, is then the selected answer. *)
Theorem screen_offers_what_page_accepts (pg : Page) (dom : node)
    (rid v : string) (index : nat) :
  screen (now pg) = Some dom ->
  ((exists pg', respond (PressSubmitAnswer rid) pg = Some pg')
   <-> In SubmitAnswer (pressable dom))
  /\ ((exists pg', respond (PressGetQuestion rid) pg = Some pg')
       \/ (exists pg', respond (PressTryAnother rid) pg = Some pg')
      <-> In FetchQuestion (pressable dom))
  /\ ((exists pg', respond (ChooseTopic v) pg = Some pg')
      <-> In (Js.Str v) (choices SetTopic dom))
  /\ ((exists pg', respond (ChooseDifficulty v) pg = Some pg')
      <-> In (Js.Str v) (choices SetDifficulty dom))
  /\ (forall pg',
        respond (ChooseOption index) pg = Some pg'
        <-> exists text,
              nth_error (choices SetSelectedAnswer dom) index = Some text
              /\ pg' = {| now := setSelectedAnswer text (now pg);
                          suspended := suspended pg |}).
Proof.
  intros Hdom. destruct (screen_Some _ _ Hdom) as (tree & Htree & ->).
  pose proof (render_spec (now pg)) as Hspec.
  rewrite Htree in Hspec.
  destruct Hspec as (Hpress & Htopic & Hdiff & Hopt & _).
  rewrite Hpress, Htopic, Hdiff, Hopt.
  cbv beta iota zeta delta [respond].
  split; [| split; [| split; [| split]]].
  - rewrite (accepted_iff (A := Page)). fold (can_submit (now pg)).
    destruct (can_get_question (now pg)), (can_submit (now pg)),
      (Js.truthy (feedback (now pg))); simpl; intuition congruence.
  - assert (Hget : (exists pg',
                       (if negb (Js.truthy_string (topic (now pg)))
                           || negb (Js.truthy_string (difficulty (now pg)))
                           || loading (now pg)
                        then None
                        else Some (proceed FetchQuestion
                                     (fetchQuestion_start rid (now pg)) pg))
                       = Some pg')
                   <-> can_get_question (now pg) = true).
    { unfold can_get_question.
      destruct (negb (Js.truthy_string (topic (now pg)))
                || negb (Js.truthy_string (difficulty (now pg)))
                || loading (now pg)); simpl; split; try discriminate.
      - intros (pg' & H). discriminate.
      - reflexivity.
      - intros _. now eexists. }
    rewrite Hget, (accepted_iff (A := Page)).
    destruct (can_get_question (now pg)), (can_submit (now pg)),
      (Js.truthy (feedback (now pg))); simpl; intuition congruence.
  - rewrite (accepted_iff (A := Page)). apply listed_In.
  - rewrite (accepted_iff (A := Page)). apply listed_In.
  - intros pg'. destruct (Js.truthy (question (now pg))).
    + destruct (nth_error (option_texts (question (now pg))) index)
        as [text |]; split.
      * intros H. injection H as <-. now exists text.
      * intros (text' & H & ->). now injection H as <-.
      * discriminate.
      * intros (text' & H & _). discriminate H.
    + split; [discriminate |]. intros (text & H & _).
      destruct index; discriminate H.
Qed.

Lemma screen_offers_what_page_accepts_witness :
  (exists pg',
      respond (PressTryAnother "t2") (after (visit_graded ++ [Elapse 5000]))
      = Some pg')
  /\ match screen (now (after (visit_graded ++ [Elapse 5000]))) with
     | Some dom => In FetchQuestion (pressable dom)
     | None => False
     end
  /\ match screen (now (after visit_numbers)) with
     | Some dom =>
         nth_error (choices SetSelectedAnswer dom) 0 = Some (Js.Num 3)
         /\ respond (ChooseOption 0) (after visit_numbers)
            = Some {| now := setSelectedAnswer (Js.Num 3)
                               (now (after visit_numbers));
                      suspended := suspended (after visit_numbers) |}
     | None => False
     end.
Proof.
  assert (Hp : exists pg',
             respond (PressTryAnother "t2")
               (after (visit_graded ++ [Elapse 5000])) = Some pg')
    by (eexists; vm_compute; reflexivity).
  split; [exact Hp |]. split.
  - destruct (screen (now (after (visit_graded ++ [Elapse 5000]))))
      as [dom |] eqn:E; [| vm_compute in E; discriminate E].
    destruct (screen_offers_what_page_accepts _ dom "t2" "4" 0 E)
      as (_ & Hfetch & _).
    apply Hfetch. now right.
  - destruct (screen (now (after visit_numbers))) as [dom |] eqn:E;
      [| vm_compute in E; discriminate E].
    assert (Hn : nth_error (choices SetSelectedAnswer dom) 0
                 = Some (Js.Num 3)).
    { vm_compute in E. injection E as <-. vm_compute. reflexivity. }
    destruct (screen_offers_what_page_accepts _ dom "t2" "4" 0 E)
      as (_ & _ & _ & _ & Hoption).
    split; [exact Hn |]. apply Hoption. exists (Js.Num 3).
    split; [exact Hn | reflexivity].
Defined.

Lemma option_rows_throw (items : list Js.value) (index : nat) (e : Js.error) :
  map_from option_row index items = Js.Throw e -> e = Js.TypeError.
Proof.
  destruct (option_rows_spec items index) as [Ht Hf].
  destruct (existsb Js.nullish items).
  - rewrite (Ht eq_refl). intros H. now injection H as <-.
  - destruct (Hf eq_refl) as (rows & -> & _). discriminate.
Qed.

(** All that [MathTutor] can throw while rendering is a [TypeError]. *)
Lemma render_throws (s : State) (e : Js.error) :
  render s = Js.Throw e -> e = Js.TypeError.
Proof.
  assert (Hq : forall e', question_card s = Js.Throw e' -> e' = Js.TypeError).
  { intros e'. unfold question_card, map_value.
    destruct (Js.truthy (question s)); [| discriminate].
    destruct (Js.property (question s) "options") as [| | | | | items |];
      simpl; try (intros H; now injection H as <-).
    destruct (map_from option_row 0 items) as [rows | e0] eqn:E; simpl;
      [discriminate |].
    intros H. injection H as <-. exact (option_rows_throw _ _ _ E). }
  assert (Hf : forall e', feedback_card s = Js.Throw e' -> e' = Js.TypeError).
  { intros e'. unfold feedback_card, map_value.
    destruct (Js.truthy (feedback s)); [| discriminate].
    destruct (Js.property (feedback s) "solution_steps")
      as [| | | | | items |];
      simpl; try (intros H; now injection H as <-).
    destruct (step_items_spec items 0) as (steps & -> & _). discriminate. }
  unfold render.
  destruct (question_card s) as [q | e1]; simpl.
  - destruct (feedback_card s) as [f | e2]; simpl; [discriminate |].
    intros H. injection H as <-. now apply Hf.
  - intros H. injection H as <-. now apply Hq.
Qed.

(** X10. In the state of a page that can be reached, [MathTutor] throws
    while rendering exactly when some element of the options of the question
    is [null] (the check of [fetchQuestion] lets such a payload through, and
    [option.text] then throws a [TypeError]); and nothing is shown exactly
    when it throws or the payloads have an object where the page shows
    text (the question's text, the text of an option, the explanation, a
    solution step), which the checks of the handlers let through too. *)
Theorem page_renders_unless_null_option (inputs : list input) (pg : Page) :
  play inputs opened = Some pg ->
  (render (now pg) = Js.Throw Js.TypeError
   <-> has_null_option (question (now pg)) = true)
  /\ (forall e, render (now pg) = Js.Throw e -> e = Js.TypeError)
  /\ (screen (now pg) = None
      <-> has_null_option (question (now pg)) = true
          \/ shows_object (now pg) = true).
Proof.
  intros H.
  destruct (reachable_invariant inputs pg H) as (((Hq & Hf & _) & _) & _).
  assert (Hqa : Js.truthy (question (now pg)) = true ->
                Js.isArray (Js.property (question (now pg)) "options") = true).
  { intros Ht. destruct Hq as [Hq | Hq]; [rewrite Hq in Ht; discriminate |].
    unfold accepts_question in Hq. now apply andb_prop in Hq. }
  assert (Hfa : Js.truthy (feedback (now pg)) = true ->
                Js.isArray (Js.property (feedback (now pg)) "solution_steps")
                = true).
  { intros Ht. destruct Hf as [Hf | Hf]; [rewrite Hf in Ht; discriminate |].
    unfold accepts_feedback in Hf. now apply andb_prop in Hf. }
  assert (Hnull : has_null_option (question (now pg)) = true ->
                  Js.truthy (question (now pg)) = true).
  { intros Hnull. destruct Hq as [Hq | Hq]; [rewrite Hq in Hnull; discriminate |].
    unfold accepts_question in Hq.
    apply andb_prop in Hq. destruct Hq as [Hq _].
    apply andb_prop in Hq. destruct Hq as [Hi _].
    destruct (question (now pg)); simpl in *; try discriminate; reflexivity. }
  pose proof (render_spec (now pg)) as Hspec.
  assert (Hthrow : (exists e, render (now pg) = Js.Throw e)
                   <-> has_null_option (question (now pg)) = true).
  { destruct (render (now pg)) as [tree | e].
    - destruct Hspec as (_ & _ & _ & _ & Hok & _). split.
      + intros (e & He). discriminate He.
      + intros Hn. destruct (Hok (Hnull Hn)) as [_ Hno]. congruence.
    - split; [| intros _; now exists e]. intros _.
      destruct Hspec as [(Ht & [Ho | Hn]) | (Ht & Hs)].
      + rewrite (Hqa Ht) in Ho. discriminate.
      + exact Hn.
      + rewrite (Hfa Ht) in Hs. discriminate. }
  split; [| split].
  - split.
    + intros Hr. apply Hthrow. eexists. exact Hr.
    + intros Hn. destruct (proj2 Hthrow Hn) as (e & He).
      now rewrite He, (render_throws _ _ He).
  - intros e. apply render_throws.
  - unfold screen. destruct (render (now pg)) as [tree | e] eqn:E.
    + destruct Hspec as (_ & _ & _ & _ & _ & _ & Hm). rewrite Hm.
      destruct (shows_object (now pg)); simpl; split;
        try discriminate; auto.
      intros [Hn | Hs]; [| discriminate Hs].
      destruct (proj2 Hthrow Hn) as (e & He). discriminate He.
    + split; [| reflexivity]. intros _. left. apply Hthrow. now exists e.
Qed.

Lemma page_renders_unless_null_option_witness :
  play visit_null_option opened = Some (after visit_null_option)
  /\ has_null_option (question (now (after visit_null_option))) = true
  /\ render (now (after visit_null_option)) = Js.Throw Js.TypeError
  /\ screen (now (after visit_null_option)) = None
  /\ play visit_object_text opened = Some (after visit_object_text)
  /\ shows_object (now (after visit_object_text)) = true
  /\ render (now (after visit_object_text)) <> Js.Throw Js.TypeError
  /\ screen (now (after visit_object_text)) = None.
Proof.
  assert (H : play visit_null_option opened = Some (after visit_null_option))
    by (vm_compute; reflexivity).
  assert (Hn : has_null_option (question (now (after visit_null_option)))
               = true) by (vm_compute; reflexivity).
  assert (H' : play visit_object_text opened
               = Some (after visit_object_text))
    by (vm_compute; reflexivity).
  assert (Ho : shows_object (now (after visit_object_text)) = true)
    by (vm_compute; reflexivity).
  destruct (page_renders_unless_null_option _ _ H) as (Hiff & _ & Hnone).
  destruct (page_renders_unless_null_option _ _ H') as (Hiff' & _ & Hnone').
  split; [exact H |]. split; [exact Hn |].
  split; [exact (proj2 Hiff Hn) |].
  split; [exact (proj2 Hnone (or_introl Hn)) |].
  split; [exact H' |]. split; [exact Ho |]. split.
  - intros Hr. apply (proj1 Hiff') in Hr. vm_compute in Hr. discriminate Hr.
  - exact (proj2 Hnone' (or_intror Ho)).
Defined.

Lemma submitAnswer_start_never_throws_witness :
  submitAnswer_start "t1" answering
  = Awaiting (send {| url := Submit;
                      body := Js.Obj [("question_id", Js.Num 1);
                                      ("selected_answer", Js.Str "4")] |}
                (setLoading true answering))
  /\ console (send {| url := Submit;
                      body := Js.Obj [("question_id", Js.Num 1);
                                      ("selected_answer", Js.Str "4")] |}
                (setLoading true answering)) = console answering.
Proof.
  assert (H : submitAnswer_start "t1" answering
              = Awaiting (send {| url := Submit;
                                  body := Js.Obj [("question_id", Js.Num 1);
                                                  ("selected_answer",
                                                   Js.Str "4")] |}
                            (setLoading true answering))) by reflexivity.
  split; [exact H |].
  exact (proj2 (submitAnswer_start_never_throws "t1" answering) _
           (or_intror H)).
Defined.

Lemma feedback_timer_outlives_question_witness :
  topic answering <> "" /\ difficulty answering <> ""
  /\ In {| due := 5000; action := ShowFeedback sample_feedback |}
       (timers (submitAnswer "t1" (Resolved (ok_200 sample_feedback))
                  answering))
  /\ loading (fetchQuestion "t2" (Resolved (ok_200 next_question))
                (submitAnswer "t1" (Resolved (ok_200 sample_feedback))
                   answering)) = false
  /\ question (advance_to 5000
                 (fetchQuestion "t2" (Resolved (ok_200 next_question))
                    (submitAnswer "t1" (Resolved (ok_200 sample_feedback))
                       answering))) = next_question
  /\ feedback (advance_to 5000
                 (fetchQuestion "t2" (Resolved (ok_200 next_question))
                    (submitAnswer "t1" (Resolved (ok_200 sample_feedback))
                       answering))) = sample_feedback.
Proof.
  set (s := submitAnswer "t1" (Resolved (ok_200 sample_feedback)) answering).
  set (x := {| due := 5000; action := ShowFeedback sample_feedback |}).
  assert (Ht : topic answering <> "") by (simpl; discriminate).
  assert (Hd : difficulty answering <> "") by (simpl; discriminate).
  assert (Hin : In x (timers s)) by (now left).
  assert (Hall : Forall (fun y => is_feedback_timer y = false \/ y = x)
                   (timers s))
    by (constructor; [now right | constructor]).
  assert (Hdue : due x <= 5000) by (simpl; lia).
  pose proof (feedback_timer_outlives_question "t2" (ok_200 next_question)
                next_question sample_feedback x 5000 s Ht Hd eq_refl eq_refl
                eq_refl Hin eq_refl Hall Hdue) as W.
  cbv zeta in W. destruct W as (_ & Hl & _ & Hq & Hf).
  split; [exact Ht |]. split; [exact Hd |]. split; [exact Hin |].
  split; [exact Hl |]. split; [exact Hq | exact Hf].
Defined.

(** ** Sessions are plays *)

Lemma fetchQuestion_start_clock (rid : string) (s s1 : State) :
  fetchQuestion_start rid s = Awaiting s1 -> clock s1 = clock s.
Proof.
  unfold fetchQuestion_start. destruct (_ || _); [discriminate |].
  intros H. now injection H as <-.
Qed.

Lemma submitAnswer_start_clock (rid : string) (s s1 : State) :
  submitAnswer_start rid s = Awaiting s1 -> clock s1 = clock s.
Proof.
  unfold submitAnswer_start. destruct (_ || _); [discriminate |].
  destruct (Js.get (question s) "id"); [| discriminate].
  intros H. now injection H as <-.
Qed.

Lemma nth_error_last {A : Type} (l : list A) (a : A) :
  nth_error (l ++ [a]) (length l) = Some a.
Proof. induction l as [| b l IH]; [reflexivity | exact IH]. Qed.

Lemma without_nth_last {A : Type} (l : list A) (a : A) :
  without_nth (length l) (l ++ [a]) = l.
Proof.
  unfold without_nth. induction l as [| b l IH]; [reflexivity |].
  simpl. f_equal. exact IH.
Qed.

(** The wait for the reply and its arrival, for the handler suspended
    last. *)
Lemma play_reply (c : call) (rid : string) (p : reply) (latency : Z)
    (s1 : State) (l : list call) :
  (0 <=? latency) = true ->
  play [Elapse latency; Settle (length l) rid p]
    {| now := s1; suspended := (l ++ [c])%list |}
  = Some {| now := resume c rid p (advance_to (clock s1 + latency) s1);
            suspended := l |}.
Proof.
  intros H. cbn [play respond now suspended]. rewrite H.
  cbn [now suspended]. rewrite nth_error_last, without_nth_last. reflexivity.
Qed.

Lemma handle_is_play (e : event) (s s' : State) (l : list call) :
  handle e s = Some s' ->
  exists inputs,
    play inputs {| now := s; suspended := l |}
    = Some {| now := s'; suspended := l |}.
Proof.
  destruct e; cbv beta iota zeta delta [handle].
  - destruct (existsb _ topics) eqn:E; [| discriminate].
    intros H. injection H as <-. exists [ChooseTopic v].
    cbn [play respond now suspended]. now rewrite E.
  - destruct (existsb _ difficulties) eqn:E; [| discriminate].
    intros H. injection H as <-. exists [ChooseDifficulty v].
    cbn [play respond now suspended]. now rewrite E.
  - destruct (Js.truthy (question s)) eqn:E; [| discriminate].
    destruct (nth_error _ index) as [text |] eqn:En; [| discriminate].
    intros H. injection H as <-. exists [ChooseOption index].
    cbn [play respond now suspended]. now rewrite E, En.
  - destruct (_ || _) eqn:E; [discriminate |].
    intros H. injection H as <-.
    apply orb_false_elim in E. destruct E as [E El].
    apply Z.ltb_ge, Z.leb_le in El.
    unfold fetchQuestion_at.
    destruct (fetchQuestion_start rid s) as [s1 | s1] eqn:Es.
    + exists [PressGetQuestion rid].
      cbn [play respond now suspended]. now rewrite E, Es.
    + exists [PressGetQuestion rid; Elapse latency; Settle (length l) rid p].
      change (play (?i :: ?rest) ?pg)
        with (match respond i pg with
              | Some pg' => play rest pg'
              | None => None
              end).
      cbn [respond now suspended]. rewrite E, Es. cbn [proceed suspended].
      rewrite (play_reply FetchQuestion rid p latency s1 l El).
      now rewrite (fetchQuestion_start_clock rid s s1 Es).
  - destruct (_ && _) eqn:E; [| discriminate].
    intros H. injection H as <-.
    apply andb_prop in E. destruct E as [E El].
    unfold submitAnswer_at.
    destruct (submitAnswer_start rid s) as [s1 | s1] eqn:Es.
    + exists [PressSubmitAnswer rid].
      cbn [play respond now suspended]. now rewrite E, Es.
    + exists [PressSubmitAnswer rid; Elapse latency; Settle (length l) rid p].
      change (play (?i :: ?rest) ?pg)
        with (match respond i pg with
              | Some pg' => play rest pg'
              | None => None
              end).
      cbn [respond now suspended]. rewrite E, Es. cbn [proceed suspended].
      rewrite (play_reply SubmitAnswer rid p latency s1 l El).
      now rewrite (submitAnswer_start_clock rid s s1 Es).
  - destruct (_ && _) eqn:E; [| discriminate].
    intros H. injection H as <-.
    apply andb_prop in E. destruct E as [E El].
    unfold fetchQuestion_at.
    destruct (fetchQuestion_start rid s) as [s1 | s1] eqn:Es.
    + exists [PressTryAnother rid].
      cbn [play respond now suspended]. now rewrite E, Es.
    + exists [PressTryAnother rid; Elapse latency; Settle (length l) rid p].
      change (play (?i :: ?rest) ?pg)
        with (match respond i pg with
              | Some pg' => play rest pg'
              | None => None
              end).
      cbn [respond now suspended]. rewrite E, Es. cbn [proceed suspended].
      rewrite (play_reply FetchQuestion rid p latency s1 l El).
      now rewrite (fetchQuestion_start_clock rid s s1 Es).
  - destruct (0 <=? ms) eqn:E; [| discriminate].
    intros H. injection H as <-. exists [Elapse ms].
    cbn [play respond now suspended]. now rewrite E.
Qed.

Lemma play_app (inputs1 inputs2 : list input) (pg pg1 : Page) :
  play inputs1 pg = Some pg1 ->
  play (inputs1 ++ inputs2) pg = play inputs2 pg1.
Proof.
  revert pg. induction inputs1 as [| i rest IH]; intros pg; simpl.
  - intros H. now injection H as <-.
  - destruct (respond i pg) as [pg' |]; [apply IH | discriminate].
Qed.

(** X8. A session in which every click is handled from start to end is a
    play of the page: the press, the wait for the reply, the reply.  So
    after every session from the initial state no toast outlives 5000 ms,
    and loading is false once 5000 ms have passed. *)
Theorem session_is_play (es : list event) (s : State) :
  session es initial = Some s ->
  (exists inputs, play inputs opened = Some {| now := s; suspended := [] |})
  /\ toasts (advance_to (clock s + 5000) s) = []
  /\ loading (advance_to (clock s + 5000) s) = false.
Proof.
  assert (Hgen : forall es s0 s1 l,
             session es s0 = Some s1 ->
             exists inputs,
               play inputs {| now := s0; suspended := l |}
               = Some {| now := s1; suspended := l |}).
  { clear. induction es as [| e es IH]; intros s0 s1 l; simpl.
    - intros H. injection H as <-. now exists [].
    - destruct (handle e s0) as [s' |] eqn:E; [| discriminate].
      intros H. destruct (handle_is_play e s0 s' l E) as (i1 & H1).
      destruct (IH s' s1 l H) as (i2 & H2).
      exists (i1 ++ i2)%list. now rewrite (play_app i1 i2 _ _ H1). }
  intros H. destruct (Hgen es initial s [] H) as (inputs & Hplay).
  split; [now exists inputs |]. split.
  - apply (invariant_toasts_expire {| now := s; suspended := [] |});
      [now apply (reachable_invariant inputs) | simpl; lia].
  - apply (invariant_releases_loading {| now := s; suspended := [] |});
      [now apply (reachable_invariant inputs) | reflexivity | simpl; lia].
Qed.

Lemma session_is_play_witness :
  session overlapping initial = Some (after_session overlapping)
  /\ timers (after_session overlapping) <> []
  /\ loading (advance_to (clock (after_session overlapping) + 5000)
               (after_session overlapping)) = false.
Proof.
  assert (H : session overlapping initial = Some (after_session overlapping))
    by (vm_compute; reflexivity).
  split; [exact H |]. split; [vm_compute; discriminate |].
  exact (proj2 (proj2 (session_is_play _ _ H))).
Defined.

(** ** The presentational components *)






(** ** The answer that is sent *)

Lemma answer_offered_same (s s' : State) :
  question s' = question s -> selectedAnswer s' = selectedAnswer s ->
  answer_offered s -> answer_offered s'.
Proof. unfold answer_offered. now intros -> ->. Qed.

Lemma resume_answer_offered (c : call) (rid : string) (p : reply)
    (s : State) :
  answer_offered s -> answer_offered (resume c rid p s).
Proof.
  intros H. destruct c; unfold resume.
  - destruct (fetchQuestion_resume_cases rid p s) as [(data & _ & ->) | (e & ->)].
    + now left.
    + now apply (answer_offered_same s).
  - destruct (submitAnswer_resume_same_quiz rid p s) as (_ & _ & Hq & Ha & _).
    now apply (answer_offered_same s).
Qed.

Lemma respond_answer_offered (i : input) (pg pg' : Page) :
  answer_offered (now pg) -> respond i pg = Some pg' ->
  answer_offered (now pg').
Proof.
  intros Hinv. destruct i; cbv beta iota zeta delta [respond].
  - destruct (existsb _ topics); [| discriminate].
    intros H. injection H as <-. exact Hinv.
  - destruct (existsb _ difficulties); [| discriminate].
    intros H. injection H as <-. exact Hinv.
  - destruct (Js.truthy (question (now pg))); [| discriminate].
    destruct (nth_error _ index) as [text |] eqn:En; [| discriminate].
    intros H. injection H as <-. right. exact (nth_error_In _ _ En).
  - destruct (_ || _); [discriminate |].
    intros H. injection H as <-. unfold fetchQuestion_start.
    destruct (_ || _); now apply (answer_offered_same (now pg)).
  - destruct (_ && _); [| discriminate].
    intros H. injection H as <-. unfold submitAnswer_start.
    destruct (_ || _); [now apply (answer_offered_same (now pg)) |].
    destruct (Js.get _ _); now apply (answer_offered_same (now pg)).
  - destruct (Js.truthy _); [| discriminate].
    intros H. injection H as <-. unfold fetchQuestion_start.
    destruct (_ || _); now apply (answer_offered_same (now pg)).
  - destruct (nth_error _ _); [| discriminate].
    intros H. injection H as <-. now apply resume_answer_offered.
  - destruct (0 <=? ms); [| discriminate].
    intros H. injection H as <-.
    destruct (advance_to_frame (clock (now pg) + ms) (now pg))
      as (_ & _ & Hq & Ha & _).
    now apply (answer_offered_same (now pg)).
Qed.

Lemma play_answer_offered (inputs : list input) (pg pg' : Page) :
  answer_offered (now pg) -> play inputs pg = Some pg' ->
  answer_offered (now pg').
Proof.
  revert pg. induction inputs as [| i rest IH]; intros pg Hinv; simpl.
  - intros H. now injection H as <-.
  - destruct (respond i pg) as [pg1 |] eqn:E; [| discriminate].
    apply IH. now apply (respond_answer_offered i pg).
Qed.

(** X12. Whatever has happened on the page, a submission that goes out
    names the question on the page and carries the text of one of its
    options, as it is in the payload, a string or not: replacing the
    question empties the selected answer in the same step, so an answer to
    an earlier question is never sent with the [id] of a later one. *)
Theorem page_submits_an_offered_answer (inputs : list input) (pg pg' : Page)
    (rid : string) :
  play inputs opened = Some pg ->
  respond (PressSubmitAnswer rid) pg = Some pg' ->
  exists answer,
    requests (now pg')
    = (requests (now pg)
       ++ [{| url := Submit;
              body := Js.Obj [("question_id",
                               Js.property (question (now pg)) "id");
                              ("selected_answer", answer)] |}])%list
    /\ In answer (option_texts (question (now pg))).
Proof.
  intros Hplay Hpress.
  destruct (press_submit_invariant pg pg' rid
              (reachable_invariant inputs pg Hplay) Hpress) as (_ & Hreq & _).
  exists (selectedAnswer (now pg)). split; [exact Hreq |].
  assert (Hoff : answer_offered (now pg)).
  { apply (play_answer_offered inputs opened); [now left | exact Hplay]. }
  cbv beta iota zeta delta [respond] in Hpress.
  destruct (_ && _) eqn:E in Hpress; [| discriminate].
  apply andb_prop in E. destruct E as [_ E].
  apply negb_true_iff, orb_false_elim in E. destruct E as [Ea _].
  apply negb_false_iff in Ea.
  destruct Hoff as [Hoff | Hoff]; [| exact Hoff].
  rewrite Hoff in Ea. discriminate Ea.
Qed.

Lemma page_submits_an_offered_answer_witness :
  play visit_numbers opened = Some (after visit_numbers)
  /\ respond (PressSubmitAnswer "t1") (after visit_numbers)
     = Some (after (visit_numbers ++ [PressSubmitAnswer "t1"]))
  /\ selectedAnswer (now (after visit_numbers)) = Js.Num 4
  /\ exists answer,
       requests (now (after (visit_numbers ++ [PressSubmitAnswer "t1"])))
       = (requests (now (after visit_numbers))
          ++ [{| url := Submit;
                 body := Js.Obj [("question_id",
                                  Js.property
                                    (question (now (after visit_numbers)))
                                    "id");
                                 ("selected_answer", answer)] |}])%list
       /\ In answer (option_texts (question (now (after visit_numbers)))).
Proof.
  assert (H : play visit_numbers opened = Some (after visit_numbers))
    by (vm_compute; reflexivity).
  assert (Hp : respond (PressSubmitAnswer "t1") (after visit_numbers)
               = Some (after (visit_numbers ++ [PressSubmitAnswer "t1"])))
    by (vm_compute; reflexivity).
  split; [exact H |]. split; [exact Hp |]. split; [vm_compute; reflexivity |].
  exact (page_submits_an_offered_answer _ _ _ "t1" H Hp).
Defined.
